(** * Binary.fun: rounds, settlement and balance bookkeeping

    A shallow embedding of the game core of the repository
    (models/Prediction, models/GameResult, models/ChartData,
    services/ChartService, services/GameService, core/Game) together with
    the properties its specification states about it.

    Conventions of the embedding:
    - a JavaScript [number] that carries a price, an amount, a balance or a
      streak is an IEEE-754 binary64 value ([spec_float] at precision 53 and
      maximal exponent 1024), with the rounding of every operation;
    - millisecond timestamps, durations and timer ids are mathematical
      integers (they stay far below 2^53, where binary64 is exact);
    - [Date.now()] and [Math.random()] are explicit arguments;
    - a [throw] is an [Err] result that leaves the state untouched (every
      [throw] of the modelled methods precedes their first mutation);
    - the audio service and the chart highlighting are presentation only and
      are left out. *)

From Stdlib Require Import ZArith Bool String List Lia.
From Stdlib Require Import Floats.SpecFloat.
Import ListNotations.
Local Open Scope Z_scope.

(** ** JavaScript numbers *)

Module Num.

Definition number : Type := spec_float.

Definition prec : Z := 53.
Definition emax : Z := 1024.

(** An integer literal. *)
Definition of_Z (z : Z) : number := binary_normalize prec emax z 0 false.

Definition add : number -> number -> number := SFadd prec emax.
Definition sub : number -> number -> number := SFsub prec emax.
Definition mul : number -> number -> number := SFmul prec emax.
Definition div : number -> number -> number := SFdiv prec emax.
Definition neg : number -> number := SFopp.

(** [x < y], [x <= y], [x > y], [x === y]; all false on NaN. *)
Definition lt (x y : number) : bool := SFltb x y.
Definition le (x y : number) : bool := SFleb x y.
Definition gt (x y : number) : bool := SFltb y x.
Definition eq (x y : number) : bool := SFeqb x y.

Definition isNaN (x : number) : bool :=
  match x with S754_nan => true | _ => false end.

Definition isFinite (x : number) : bool :=
  match x with S754_zero _ | S754_finite _ _ _ => true | _ => false end.

(** ToBoolean: [NaN], [+0] and [-0] are falsy. *)
Definition truthy (x : number) : bool :=
  match x with S754_nan | S754_zero _ => false | _ => true end.

(** The decimal literals of the source, correctly rounded. *)
Definition lit_0_01 : number := div (of_Z 1) (of_Z 100).
Definition lit_0_02 : number := div (of_Z 2) (of_Z 100).

(** [Math.abs]. *)
Definition Math_abs : number -> number := SFabs.

(** [Math.max(a, b)]: NaN if either argument is, and [+0] above [-0]. *)
Definition Math_max (a b : number) : number :=
  if isNaN a || isNaN b then S754_nan
  else if lt a b then b
  else if lt b a then a
  else match a with S754_zero true => b | _ => a end.

(** [Math.round(x)]: the integer [floor(x + 1/2)], computed exactly; NaN,
    infinities, zeros and integers are returned as they are, and a result
    of zero keeps the sign of [x]. *)
Definition Math_round (x : number) : number :=
  match x with
  | S754_finite s m e =>
      if 0 <=? e then x
      else binary_normalize prec emax
             ((2 * cond_Zopp s (Zpos m) + 2 ^ (- e)) / 2 ^ (1 - e)) 0 s
  | _ => x
  end.

End Num.

Import Num.

(** ** models/Prediction *)

Inductive PredictionDirection : Type := up | down.

Definition PredictionDirection_eqb (a b : PredictionDirection) : bool :=
  match a, b with
  | up, up | down, down => true
  | _, _ => false
  end.

Module Prediction.

Record t : Type := new {
  direction : PredictionDirection;
  amount : number;
  userId : string;
  timestamp : Z
}.

Definition isCorrect (this : t) (actualDirection : PredictionDirection) : bool :=
  PredictionDirection_eqb (direction this) actualDirection.

End Prediction.

(** ** models/GameResult *)

Inductive GameResultStatus : Type := win | lose | pending.

Definition GameResultStatus_eqb (a b : GameResultStatus) : bool :=
  match a, b with
  | win, win | lose, lose | pending, pending => true
  | _, _ => false
  end.

Module GameResult.

Record t : Type := mk {
  prediction : Prediction.t;
  startPrice : number;
  endPrice : number;
  timestamp : Z;
  reward : number;
  status : GameResultStatus
}.

Definition getActualDirection (this : t) : PredictionDirection :=
  if gt (endPrice this) (startPrice this) then up
  else if lt (endPrice this) (startPrice this) then down
  else down.

Definition calculateStatus (this : t) : GameResultStatus :=
  if Prediction.isCorrect (prediction this) (getActualDirection this)
  then win else lose.

(** The constructor; [endPrice'] is the optional third argument. *)
Definition new (prediction' : Prediction.t) (startPrice' : number)
    (endPrice' : option number) (timestamp' : Z) : t :=
  let given :=
    match endPrice' with Some e => truthy e | None => false end in
  let this :=
    {| prediction := prediction';
       startPrice := startPrice';
       endPrice := match endPrice' with
                   | Some e => if truthy e then e else startPrice'
                   | None => startPrice'
                   end;
       timestamp := timestamp';
       reward := of_Z 0;
       status := pending |} in
  {| prediction := prediction this;
     startPrice := startPrice this;
     endPrice := endPrice this;
     timestamp := timestamp this;
     reward := reward this;
     status := if given then calculateStatus this else pending |}.

Definition setReward (this : t) (reward' : number) : t :=
  {| prediction := prediction this;
     startPrice := startPrice this;
     endPrice := endPrice this;
     timestamp := timestamp this;
     reward := reward';
     status := status this |}.

Definition getPriceChangePercentage (this : t) : number :=
  mul (div (sub (endPrice this) (startPrice this)) (startPrice this))
      (of_Z 100).

Definition updateResult (this : t) (endPrice' : number) : t :=
  let this' :=
    {| prediction := prediction this;
       startPrice := startPrice this;
       endPrice := endPrice';
       timestamp := timestamp this;
       reward := reward this;
       status := status this |} in
  {| prediction := prediction this';
     startPrice := startPrice this';
     endPrice := endPrice this';
     timestamp := timestamp this';
     reward := reward this';
     status := calculateStatus this' |}.

End GameResult.

(** ** Arrays

    The methods of [Array] the repository calls on its lists, for integer
    arguments; an index that is not found is -1. *)

Module JsArray.

(** [findIndex(f)]: the index of the first element that satisfies [f]. *)
Fixpoint findIndex {A : Type} (f : A -> bool) (l : list A) : Z :=
  match l with
  | [] => -1
  | x :: rest =>
      if f x then 0
      else let i := findIndex f rest in
           if i =? -1 then -1 else i + 1
  end.

(** [indexOf(x)] on a list of callback identities. *)
Definition indexOf (l : list Z) (x : Z) : Z := findIndex (Z.eqb x) l.

(** A relative index: counted from the end when negative, and clamped. *)
Definition relative {A : Type} (l : list A) (i : Z) : Z :=
  let len := Z.of_nat (length l) in
  if i <? 0 then Z.max (len + i) 0 else Z.min i len.

(** [slice(start, end)]. *)
Definition slice {A : Type} (l : list A) (start end' : Z) : list A :=
  let k := relative l start in
  let final := relative l end' in
  firstn (Z.to_nat (final - k)) (skipn (Z.to_nat k) l).

(** [splice(start, deleteCount)], the array that is left. *)
Definition splice {A : Type} (l : list A) (start deleteCount : Z) : list A :=
  let len := Z.of_nat (length l) in
  let k := relative l start in
  let dc := Z.min (Z.max deleteCount 0) (len - k) in
  firstn (Z.to_nat k) l ++ skipn (Z.to_nat (k + dc)) l.

End JsArray.

(** ** models/ChartData *)

Record ChartDataPoint : Type := mkPoint {
  timestamp : Z;
  price : number
}.

Module ChartData.

Record t : Type := mk {
  data : list ChartDataPoint;
  maxDataPoints : Z
}.

Definition new (data' : list ChartDataPoint) (maxDataPoints' : Z) : t :=
  {| data := data'; maxDataPoints := maxDataPoints' |}.

(** [push], then [slice(length - max)] once the limit is exceeded. *)
Definition addDataPoint (this : t) (point : ChartDataPoint) : t :=
  let pushed := data this ++ [point] in
  let len := Z.of_nat (length pushed) in
  if (0 <? maxDataPoints this) && (maxDataPoints this <? len)
  then {| data := skipn (Z.to_nat (len - maxDataPoints this)) pushed;
          maxDataPoints := maxDataPoints this |}
  else {| data := pushed; maxDataPoints := maxDataPoints this |}.

Definition getDataInRange (this : t) (startTime endTime : Z)
  : list ChartDataPoint :=
  filter (fun point => (startTime <=? timestamp point)
                       && (timestamp point <=? endTime)) (data this).

Definition getLatestPoint (this : t) : option ChartDataPoint :=
  last (map Some (data this)) None.

(** [count] is an integer: [Math.floor(count / 2)] is its half rounded
    down. *)
Definition getPointsAroundTime (this : t) (timestamp' count : Z)
  : list ChartDataPoint :=
  let index :=
    JsArray.findIndex (fun point => timestamp' <=? timestamp point)
      (data this) in
  if index =? -1 then []
  else
    let startIndex := Z.max 0 (index - count / 2) in
    let endIndex :=
      Z.min (Z.of_nat (length (data this)) - 1) (startIndex + count - 1) in
    JsArray.slice (data this) startIndex (endIndex + 1).

End ChartData.

(** ** The timers of the host: [setInterval], [setTimeout], [clearInterval]

    The callbacks the repository registers are enumerated.  A timer fires at
    its due time; an interval is re-armed one period later, in place. *)

Inductive Callback : Type :=
| ChartService_tick          (* () => this.generateNextDataPoint() *)
| GameService_cycle          (* endCurrentRound, then schedule the next round *)
| GameService_startNewRound  (* () => this.startNewRound() *)
| Game_countdown.            (* the countdown emitter of Game.startCountdown *)

Module Timers.

Record Timer : Type := mkTimer {
  tid : Z;
  due : Z;
  period : option Z;
  callback : Callback
}.

Record table : Type := mk {
  pending : list Timer;
  nextId : Z
}.

Definition empty : table := {| pending := []; nextId := 1 |}.

Definition setInterval (tbl : table) (cb : Callback) (ms now : Z)
  : table * Z :=
  ({| pending := pending tbl ++ [mkTimer (nextId tbl) (now + ms) (Some ms) cb];
      nextId := nextId tbl + 1 |}, nextId tbl).

Definition setTimeout (tbl : table) (cb : Callback) (ms now : Z)
  : table * Z :=
  ({| pending := pending tbl ++ [mkTimer (nextId tbl) (now + ms) None cb];
      nextId := nextId tbl + 1 |}, nextId tbl).

Definition clearInterval (tbl : table) (id : Z) : table :=
  {| pending := filter (fun t => negb (tid t =? id)) (pending tbl);
     nextId := nextId tbl |}.

(** The pending timer that is due first (the earliest registered one among
    equals), with the timers before and after it. *)
Fixpoint pick (l : list Timer) : option (list Timer * Timer * list Timer) :=
  match l with
  | [] => None
  | t :: rest =>
      match pick rest with
      | None => Some ([], t, [])
      | Some (before, m, after) =>
          if due t <=? due m then Some ([], t, rest)
          else Some (t :: before, m, after)
      end
  end.

(** What is left of a timer once it has fired. *)
Definition rearm (t : Timer) : list Timer :=
  match period t with
  | Some ms => [mkTimer (tid t) (due t + ms) (Some ms) (callback t)]
  | None => []
  end.

End Timers.

(** ** services/ChartService *)

Module ChartService.

Record t : Type := mk {
  chartData : ChartData.t;
  updateInterval : Z;
  intervalId : option Z;
  volatility : number;
  trend : number;
  lastPrice : number;
  fixedTimeStep : Z
}.

Definition set_chartData_lastPrice (this : t) (cd : ChartData.t)
    (p : number) : t :=
  {| chartData := cd;
     updateInterval := updateInterval this;
     intervalId := intervalId this;
     volatility := volatility this;
     trend := trend this;
     lastPrice := p;
     fixedTimeStep := fixedTimeStep this |}.

Definition set_intervalId (this : t) (id : option Z) : t :=
  {| chartData := chartData this;
     updateInterval := updateInterval this;
     intervalId := id;
     volatility := volatility this;
     trend := trend this;
     lastPrice := lastPrice this;
     fixedTimeStep := fixedTimeStep this |}.

(** The loop of the constructor, [for (i = maxDataPoints - 1; i >= 0; i--)];
    [remaining] is [i + 1] and [calls] counts the draws made so far. *)
Fixpoint fillHistory (remaining : nat) (calls : nat) (initialPrice : number)
    (now : Z) (Math_random : nat -> number) (this : t) : t :=
  match remaining with
  | O => this
  | S i =>
      let timestamp' := now - Z.of_nat i * fixedTimeStep this in
      let randomFactor :=
        add (of_Z 1)
            (sub (mul (Math_random calls) lit_0_02) lit_0_01) in
      let price' := mul initialPrice randomFactor in
      let this' :=
        set_chartData_lastPrice this
          (ChartData.addDataPoint (chartData this)
             (mkPoint timestamp' price'))
          price' in
      fillHistory i (S calls) initialPrice now Math_random this'
  end.

Definition startUpdates (this : t) (tbl : Timers.table) (now : Z)
  : t * Timers.table :=
  match intervalId this with
  | Some _ => (this, tbl)
  | None =>
      let '(tbl', id) :=
        Timers.setInterval tbl ChartService_tick (updateInterval this) now in
      (set_intervalId this (Some id), tbl')
  end.

Definition new (initialPrice : number) (updateInterval' : Z)
    (volatility' trend' : number) (maxDataPoints' : Z)
    (tbl : Timers.table) (now : Z) (Math_random : nat -> number)
  : t * Timers.table :=
  let this :=
    {| chartData := ChartData.new [] maxDataPoints';
       updateInterval := updateInterval';
       intervalId := None;
       volatility := volatility';
       trend := trend';
       lastPrice := initialPrice;
       fixedTimeStep := updateInterval' |} in
  startUpdates
    (fillHistory (Z.to_nat maxDataPoints') 0 initialPrice now Math_random this)
    tbl now.

(** The unclamped candidate of the walk,
    [lastPrice + randomChange + trendChange]. *)
Definition walkCandidate (this : t) (random : number) : number :=
  let randomChange :=
    mul (mul (lastPrice this) (volatility this))
        (sub (mul random (of_Z 2)) (of_Z 1)) in
  let trendChange := mul (lastPrice this) (trend this) in
  add (add (lastPrice this) randomChange) trendChange.

(** [random] is the value [Math.random()] returns in this call. *)
Definition generateNextDataPoint (this : t) (now : Z) (random : number)
  : t * ChartDataPoint :=
  let timestamp' :=
    match ChartData.getLatestPoint (chartData this) with
    | Some lastPoint => timestamp lastPoint + fixedTimeStep this
    | None => now
    end in
  let newPrice := Math_max lit_0_01 (walkCandidate this random) in
  let dataPoint := mkPoint timestamp' newPrice in
  (set_chartData_lastPrice this
     (ChartData.addDataPoint (chartData this) dataPoint) newPrice,
   dataPoint).

(** [dataPoints[Math.floor(dataPoints.length * 0.75) - 1]]; the product
    with 0.75 is exact for every length a list can have, so the index is
    the integer [3 * length / 4 - 1]. *)
Definition pointAt75 (this : t) : option ChartDataPoint :=
  let dataPoints := ChartData.data (chartData this) in
  let visibleDataPoints := 3 * Z.of_nat (length dataPoints) / 4 in
  if 0 <=? visibleDataPoints - 1
  then nth_error dataPoints (Z.to_nat (visibleDataPoints - 1))
  else None.

Definition getCurrentPrice (this : t) : number :=
  match pointAt75 this with
  | Some currentPoint => price currentPoint
  | None =>
      match ChartData.getLatestPoint (chartData this) with
      | Some latestPoint => price latestPoint
      | None => lastPrice this
      end
  end.

(** The price [markPredictionPoint] returns (the same point as
    [getCurrentPrice]; the highlight flags it sets are not modelled). *)
Definition markPredictionPoint (this : t) : number :=
  match pointAt75 this with
  | Some currentPoint => price currentPoint
  | None =>
      match ChartData.getLatestPoint (chartData this) with
      | Some latestPoint => price latestPoint
      | None => lastPrice this
      end
  end.

Definition stopUpdates (this : t) (tbl : Timers.table) : t * Timers.table :=
  match intervalId this with
  | Some id => (set_intervalId this None, Timers.clearInterval tbl id)
  | None => (this, tbl)
  end.

Definition setUpdateInterval (this : t) (interval : Z) (tbl : Timers.table)
    (now : Z) : t * Timers.table :=
  let this1 :=
    {| chartData := chartData this;
       updateInterval := interval;
       intervalId := intervalId this;
       volatility := volatility this;
       trend := trend this;
       lastPrice := lastPrice this;
       fixedTimeStep := interval |} in
  let '(this2, tbl2) := stopUpdates this1 tbl in
  startUpdates this2 tbl2 now.

Definition setVolatility (this : t) (volatility' : number) : t :=
  {| chartData := chartData this;
     updateInterval := updateInterval this;
     intervalId := intervalId this;
     volatility := volatility';
     trend := trend this;
     lastPrice := lastPrice this;
     fixedTimeStep := fixedTimeStep this |}.

Definition setTrend (this : t) (trend' : number) : t :=
  {| chartData := chartData this;
     updateInterval := updateInterval this;
     intervalId := intervalId this;
     volatility := volatility this;
     trend := trend';
     lastPrice := lastPrice this;
     fixedTimeStep := fixedTimeStep this |}.

End ChartService.

(** ** Errors

    The three [throw new Error(...)] of the core, by their messages. *)

Inductive Error : Type :=
| RoundNotActive   (* GameService.makePrediction: no active current round *)
| GameNotRunning   (* Game.makePrediction: the game is not running *)
| InvalidAmount.   (* Game.makePrediction: invalid amount *)

Inductive result (A : Type) : Type :=
| Ok (a : A)
| Err (e : Error).

Arguments Ok {A} a.
Arguments Err {A} e.

(** ** services/GameService: GameRound *)

Module GameRound.

Record t : Type := mk {
  startTime : Z;
  endTime : Z;
  startPrice : number;
  predictions : list Prediction.t;
  isActive : bool
}.

Definition new (startTime' durationMs : Z) (startPrice' : number) : t :=
  {| startTime := startTime';
     endTime := startTime' + durationMs;
     startPrice := startPrice';
     predictions := [];
     isActive := true |}.

Definition addPrediction (this : t) (prediction : Prediction.t) : t :=
  if isActive this
  then {| startTime := startTime this;
          endTime := endTime this;
          startPrice := startPrice this;
          predictions := predictions this ++ [prediction];
          isActive := isActive this |}
  else this.

Definition close (this : t) : t :=
  {| startTime := startTime this;
     endTime := endTime this;
     startPrice := startPrice this;
     predictions := predictions this;
     isActive := false |}.

Definition getRemainingTimeMs (this : t) (now : Z) : Z :=
  Z.max 0 (endTime this - now).

End GameRound.

(** ** services/GameService

    The subscribers of the results are callbacks; every method that notifies
    them returns the results it delivers, in order, and the caller hands them
    to the one subscriber of the application, [Game.handleGameResult], which
    [Game]'s constructor registers and nothing ever removes.  The handler
    touches no state of the service, so delivering after the loop is the
    same as delivering inside it. *)

Module GameService.

Record t : Type := mk {
  currentRound : option GameRound.t;
  results : list GameResult.t;
  roundDurationMs : Z;
  roundIntervalMs : Z;
  intervalId : option Z;
  winMultiplier : number
}.

Definition set_currentRound (this : t) (r : option GameRound.t) : t :=
  {| currentRound := r;
     results := results this;
     roundDurationMs := roundDurationMs this;
     roundIntervalMs := roundIntervalMs this;
     intervalId := intervalId this;
     winMultiplier := winMultiplier this |}.

Definition set_results (this : t) (rs : list GameResult.t) : t :=
  {| currentRound := currentRound this;
     results := rs;
     roundDurationMs := roundDurationMs this;
     roundIntervalMs := roundIntervalMs this;
     intervalId := intervalId this;
     winMultiplier := winMultiplier this |}.

Definition set_intervalId (this : t) (id : option Z) : t :=
  {| currentRound := currentRound this;
     results := results this;
     roundDurationMs := roundDurationMs this;
     roundIntervalMs := roundIntervalMs this;
     intervalId := id;
     winMultiplier := winMultiplier this |}.

Definition makePrediction (this : t) (direction : PredictionDirection)
    (amount : number) (userId : string) (now : Z)
  : result (t * Prediction.t) :=
  match currentRound this with
  | None => Err RoundNotActive
  | Some round =>
      if negb (GameRound.isActive round) then Err RoundNotActive
      else
        let predictionDirection :=
          if PredictionDirection_eqb direction up then up else down in
        let prediction :=
          Prediction.new predictionDirection amount userId now in
        Ok (set_currentRound this
              (Some (GameRound.addPrediction round prediction)),
            prediction)
  end.

Definition startNewRound (this : t) (chart : ChartService.t) (now : Z) : t :=
  let currentPrice := ChartService.getCurrentPrice chart in
  let startTime := now in
  set_currentRound this
    (Some (GameRound.new startTime (roundDurationMs this) currentPrice)).

Definition getCurrentRound (this : t) (chart : ChartService.t) (now : Z)
  : t * GameRound.t :=
  match currentRound this with
  | Some round => (this, round)
  | None =>
      (* [startNewRound()], then the round it has just stored *)
      let this' := startNewRound this chart now in
      (this',
       GameRound.new now (roundDurationMs this)
         (ChartService.getCurrentPrice chart))
  end.

(** The body of the [for ... of] loop of [endCurrentRound]. *)
Definition settlePrediction (winMultiplier' : number)
    (startPrice' currentPrice : number) (now : Z)
    (prediction : Prediction.t) : GameResult.t :=
  let result :=
    GameResult.new prediction startPrice' (Some currentPrice) now in
  if GameResultStatus_eqb (GameResult.status result) win
  then GameResult.setReward result
         (mul (Prediction.amount prediction) winMultiplier')
  else result.

(** Returns the service after the round is closed and the results are
    stored, and the results delivered to the subscribers. *)
Definition endCurrentRound (this : t) (chart : ChartService.t) (now : Z)
  : t * list GameResult.t :=
  match currentRound this with
  | None => (this, [])
  | Some round =>
      let round' := GameRound.close round in
      let currentPrice := ChartService.getCurrentPrice chart in
      let produced :=
        map (settlePrediction (winMultiplier this)
               (GameRound.startPrice round') currentPrice now)
            (GameRound.predictions round') in
      (set_results (set_currentRound this (Some round'))
         (results this ++ produced),
       produced)
  end.

Definition startGameCycle (this : t) (chart : ChartService.t)
    (tbl : Timers.table) (now : Z) : t * Timers.table :=
  match intervalId this with
  | Some _ => (this, tbl)
  | None =>
      let this' := startNewRound this chart now in
      let '(tbl', id) :=
        Timers.setInterval tbl GameService_cycle
          (roundDurationMs this' + roundIntervalMs this') now in
      (set_intervalId this' (Some id), tbl')
  end.

Definition stopGameCycle (this : t) (tbl : Timers.table)
  : t * Timers.table :=
  match intervalId this with
  | Some id => (set_intervalId this None, Timers.clearInterval tbl id)
  | None => (this, tbl)
  end.

Definition new (chart : ChartService.t)
    (roundDurationMs' roundIntervalMs' : Z) (winMultiplier' : number)
    (tbl : Timers.table) (now : Z) : t * Timers.table :=
  startGameCycle
    {| currentRound := None;
       results := [];
       roundDurationMs := roundDurationMs';
       roundIntervalMs := roundIntervalMs';
       intervalId := None;
       winMultiplier := winMultiplier' |}
    chart tbl now.

(** The callback of the interval of [startGameCycle]:
    [endCurrentRound()], then [setTimeout(startNewRound, roundIntervalMs)]. *)
Definition cycle (this : t) (chart : ChartService.t) (tbl : Timers.table)
    (now : Z) : t * Timers.table * list GameResult.t :=
  let '(this', delivered) := endCurrentRound this chart now in
  let '(tbl', _) :=
    Timers.setTimeout tbl GameService_startNewRound
      (roundIntervalMs this') now in
  (this', tbl', delivered).

Definition setRoundDuration (this : t) (durationMs : Z)
    (chart : ChartService.t) (tbl : Timers.table) (now : Z)
  : t * Timers.table :=
  let this1 :=
    {| currentRound := currentRound this;
       results := results this;
       roundDurationMs := durationMs;
       roundIntervalMs := roundIntervalMs this;
       intervalId := intervalId this;
       winMultiplier := winMultiplier this |} in
  let '(this2, tbl2) := stopGameCycle this1 tbl in
  startGameCycle this2 chart tbl2 now.

Definition setWinMultiplier (this : t) (multiplier : number) : t :=
  {| currentRound := currentRound this;
     results := results this;
     roundDurationMs := roundDurationMs this;
     roundIntervalMs := roundIntervalMs this;
     intervalId := intervalId this;
     winMultiplier := multiplier |}.

End GameService.

(** ** core/Game *)

Inductive GameState : Type := waiting | running | finished.

Definition GameState_eqb (a b : GameState) : bool :=
  match a, b with
  | waiting, waiting | running, running | finished, finished => true
  | _, _ => false
  end.

Inductive GameEvent : Type :=
| round_start (timestamp : Z) (price : number)
| round_end (timestamp : Z) (results : list GameResult.t)
| prediction_made (direction : PredictionDirection) (amount price : number)
| balance_changed (newBalance change : number)
| countdown (remainingSeconds : Z)
| result_event (result : GameResult.t) (winStreak : number).

Module Game.

Record GameConfig : Type := mkConfig {
  roundDurationMs : Z;
  roundIntervalMs : Z;
  winMultiplier : number;
  initialBalance : number
}.

Record PartialGameConfig : Type := mkPartial {
  roundDurationMs' : option Z;
  roundIntervalMs' : option Z;
  winMultiplier' : option number;
  initialBalance' : option number
}.

Record t : Type := mk {
  config : GameConfig;
  state : GameState;
  balance : number;
  userId : string;
  countdownIntervalId : option Z;
  winStreak : number
}.

(** The constructor.  Its last statement subscribes [handleGameResult] to
    the results of the game service. *)
Definition new (config' : GameConfig) (userId' : string) : t :=
  {| config := config';
     state := waiting;
     balance := initialBalance config';
     userId := userId';
     countdownIntervalId := None;
     winStreak := of_Z 0 |}.

Definition set_state (this : t) (s : GameState) : t :=
  {| config := config this;
     state := s;
     balance := balance this;
     userId := userId this;
     countdownIntervalId := countdownIntervalId this;
     winStreak := winStreak this |}.

Definition set_balance (this : t) (b : number) : t :=
  {| config := config this;
     state := state this;
     balance := b;
     userId := userId this;
     countdownIntervalId := countdownIntervalId this;
     winStreak := winStreak this |}.

Definition set_countdownIntervalId (this : t) (id : option Z) : t :=
  {| config := config this;
     state := state this;
     balance := balance this;
     userId := userId this;
     countdownIntervalId := id;
     winStreak := winStreak this |}.

Definition set_winStreak (this : t) (n : number) : t :=
  {| config := config this;
     state := state this;
     balance := balance this;
     userId := userId this;
     countdownIntervalId := countdownIntervalId this;
     winStreak := n |}.

(** Every method returns the events it passes to [emitEvent], in order. *)

Definition stopCountdown (this : t) (tbl : Timers.table)
  : t * Timers.table :=
  match countdownIntervalId this with
  | Some id =>
      (set_countdownIntervalId this None, Timers.clearInterval tbl id)
  | None => (this, tbl)
  end.

Definition startCountdown (this : t) (tbl : Timers.table) (now : Z)
  : t * Timers.table :=
  let '(this1, tbl1) :=
    match countdownIntervalId this with
    | Some _ => stopCountdown this tbl
    | None => (this, tbl)
    end in
  let '(tbl2, id) := Timers.setInterval tbl1 Game_countdown 1000 now in
  (set_countdownIntervalId this1 (Some id), tbl2).

(** The callback of the interval of [startCountdown];
    [Math.ceil(remainingMs / 1000)] on a non-negative integer. *)
Definition countdownTick (this : t) (svc : GameService.t)
    (chart : ChartService.t) (now : Z)
  : GameService.t * list GameEvent :=
  let '(svc', currentRound) := GameService.getCurrentRound svc chart now in
  let remainingMs := GameRound.getRemainingTimeMs currentRound now in
  let remainingSeconds := (remainingMs + 999) / 1000 in
  (svc', [countdown remainingSeconds]).

Definition start (this : t) (svc : GameService.t) (chart : ChartService.t)
    (tbl : Timers.table) (now : Z)
  : t * GameService.t * Timers.table * list GameEvent :=
  if GameState_eqb (state this) running then (this, svc, tbl, [])
  else
    let this1 := set_state this running in
    let '(svc', currentRound) := GameService.getCurrentRound svc chart now in
    let ev := round_start (GameRound.startTime currentRound)
                          (GameRound.startPrice currentRound) in
    let '(this2, tbl') := startCountdown this1 tbl now in
    (this2, svc', tbl', [ev]).

Definition stop (this : t) (tbl : Timers.table) : t * Timers.table :=
  if negb (GameState_eqb (state this) running) then (this, tbl)
  else stopCountdown (set_state this finished) tbl.

(** Returns, besides the new states and the events, the prediction the
    game service created (the method itself returns nothing). *)
Definition makePrediction (this : t) (svc : GameService.t)
    (chart : ChartService.t) (direction : PredictionDirection)
    (amount : number) (now : Z)
  : result (GameService.t * list GameEvent * Prediction.t) :=
  if negb (GameState_eqb (state this) running) then Err GameNotRunning
  else if le amount (of_Z 0) || gt amount (balance this)
  then Err InvalidAmount
  else
    match GameService.makePrediction svc direction amount (userId this) now
    with
    | Err e => Err e
    | Ok (svc', prediction) =>
        let currentPrice := ChartService.markPredictionPoint chart in
        Ok (svc', [prediction_made direction amount currentPrice],
            prediction)
    end.

Definition updateBalance (this : t) (change : number)
  : t * list GameEvent :=
  let this' := set_balance this (add (balance this) change) in
  (this', [balance_changed (balance this') change]).

(** The payout of a result: [Math.round(amount * |change %| / 100)]. *)
Definition amountChange (result : GameResult.t) : number :=
  let priceChangePercentage :=
    Math_abs (GameResult.getPriceChangePercentage result) in
  Math_round
    (div (mul (Prediction.amount (GameResult.prediction result))
              priceChangePercentage)
         (of_Z 100)).

Definition handleGameResult (this : t) (result : GameResult.t)
  : t * list GameEvent :=
  if negb (String.eqb (Prediction.userId (GameResult.prediction result))
                      (userId this))
  then (this, [])
  else
    let '(this1, evs) :=
      if GameResultStatus_eqb (GameResult.status result) win
      then
        let '(g, evs) := updateBalance this (amountChange result) in
        (set_winStreak g (add (winStreak g) (of_Z 1)), evs)
      else
        let '(g, evs) := updateBalance this (neg (amountChange result)) in
        (set_winStreak g (of_Z 0), evs) in
    (this1, evs ++ [result_event result (winStreak this1)]).

(** The subscriber at work: the results of one settlement, in order. *)
Fixpoint handleGameResults (this : t) (delivered : list GameResult.t)
  : t * list GameEvent :=
  match delivered with
  | [] => (this, [])
  | r :: rest =>
      let '(this1, evs1) := handleGameResult this r in
      let '(this2, evs2) := handleGameResults this1 rest in
      (this2, evs1 ++ evs2)
  end.

(** [{ ...this._config, ...config }] for a [Partial<GameConfig>]. *)
Definition mergeConfig (base : GameConfig) (partial : PartialGameConfig)
  : GameConfig :=
  {| roundDurationMs :=
       match roundDurationMs' partial with
       | Some v => v | None => roundDurationMs base end;
     roundIntervalMs :=
       match roundIntervalMs' partial with
       | Some v => v | None => roundIntervalMs base end;
     winMultiplier :=
       match winMultiplier' partial with
       | Some v => v | None => winMultiplier base end;
     initialBalance :=
       match initialBalance' partial with
       | Some v => v | None => initialBalance base end |}.

Definition updateConfig (this : t) (partial : PartialGameConfig) : t :=
  {| config := mergeConfig (config this) partial;
     state := state this;
     balance := balance this;
     userId := userId this;
     countdownIntervalId := countdownIntervalId this;
     winStreak := winStreak this |}.

End Game.

(** ** The running application

    [main.tsx] builds one chart service, one game service on it and one game
    on both.  The world holds them, the clock, the timers of the host and
    the events the game has emitted so far, oldest first. *)

Module World.

Record t : Type := mk {
  now : Z;
  timers : Timers.table;
  chartService : ChartService.t;
  gameService : GameService.t;
  game : Game.t;
  emitted : list GameEvent
}.

(** The parameters of [main.tsx]. *)
Record Setup : Type := mkSetup {
  initialPrice : number;
  updateInterval : Z;
  volatility : number;
  trend : number;
  maxDataPoints : Z;
  roundDurationMs : Z;
  roundIntervalMs : Z;
  winMultiplier : number;
  config : Game.GameConfig;
  userId : string
}.

Definition boot (s : Setup) (now' : Z) (Math_random : nat -> number) : t :=
  let '(chart, tbl1) :=
    ChartService.new (initialPrice s) (updateInterval s) (volatility s)
      (trend s) (maxDataPoints s) Timers.empty now' Math_random in
  let '(svc, tbl2) :=
    GameService.new chart (roundDurationMs s) (roundIntervalMs s)
      (winMultiplier s) tbl1 now' in
  {| now := now';
     timers := tbl2;
     chartService := chart;
     gameService := svc;
     game := Game.new (config s) (userId s);
     emitted := [] |}.

(** What the host and the user can do. *)
Inductive Event : Type :=
| Fire (random : number)
    (* the pending timer that is due first fires; [random] is the draw of
       [Math.random()] should its callback ask for one *)
| Elapse (ms : Z)
    (* time passes, up to the next due time *)
| Game_start
| Game_stop
| Game_makePrediction (direction : PredictionDirection) (amount : number)
| GameService_makePrediction (direction : PredictionDirection)
    (amount : number) (userId : string).

(** What the caller of an event sees. *)
Inductive Reply : Type :=
| Returned
| Created (prediction : Prediction.t)
| Threw (e : Error).

Definition runCallback (w : t) (cb : Callback) (random : number) : t :=
  match cb with
  | ChartService_tick =>
      let '(chart', _) :=
        ChartService.generateNextDataPoint (chartService w) (now w) random in
      {| now := now w; timers := timers w; chartService := chart';
         gameService := gameService w; game := game w;
         emitted := emitted w |}
  | GameService_cycle =>
      let '(svc', tbl', delivered) :=
        GameService.cycle (gameService w) (chartService w) (timers w)
          (now w) in
      let '(game', evs) := Game.handleGameResults (game w) delivered in
      {| now := now w; timers := tbl'; chartService := chartService w;
         gameService := svc'; game := game';
         emitted := emitted w ++ evs |}
  | GameService_startNewRound =>
      {| now := now w; timers := timers w; chartService := chartService w;
         gameService :=
           GameService.startNewRound (gameService w) (chartService w)
             (now w);
         game := game w; emitted := emitted w |}
  | Game_countdown =>
      let '(svc', evs) :=
        Game.countdownTick (game w) (gameService w) (chartService w)
          (now w) in
      {| now := now w; timers := timers w; chartService := chartService w;
         gameService := svc'; game := game w;
         emitted := emitted w ++ evs |}
  end.

Definition fire (w : t) (random : number) : t :=
  match Timers.pick (Timers.pending (timers w)) with
  | None => w
  | Some (before, timer, after) =>
      runCallback
        {| now := Z.max (now w) (Timers.due timer);
           timers :=
             {| Timers.pending := before ++ Timers.rearm timer ++ after;
                Timers.nextId := Timers.nextId (timers w) |};
           chartService := chartService w;
           gameService := gameService w;
           game := game w;
           emitted := emitted w |}
        (Timers.callback timer) random
  end.

Definition elapse (w : t) (ms : Z) : t :=
  let target := now w + Z.max 0 ms in
  let now' :=
    match Timers.pick (Timers.pending (timers w)) with
    | None => target
    | Some (_, timer, _) => Z.max (now w) (Z.min target (Timers.due timer))
    end in
  {| now := now'; timers := timers w; chartService := chartService w;
     gameService := gameService w; game := game w; emitted := emitted w |}.

Definition step (w : t) (ev : Event) : t * Reply :=
  match ev with
  | Fire random => (fire w random, Returned)
  | Elapse ms => (elapse w ms, Returned)
  | Game_start =>
      let '(game', svc', tbl', evs) :=
        Game.start (game w) (gameService w) (chartService w) (timers w)
          (now w) in
      ({| now := now w; timers := tbl'; chartService := chartService w;
          gameService := svc'; game := game';
          emitted := emitted w ++ evs |}, Returned)
  | Game_stop =>
      let '(game', tbl') := Game.stop (game w) (timers w) in
      ({| now := now w; timers := tbl'; chartService := chartService w;
          gameService := gameService w; game := game';
          emitted := emitted w |}, Returned)
  | Game_makePrediction direction amount =>
      match Game.makePrediction (game w) (gameService w) (chartService w)
              direction amount (now w) with
      | Err e => (w, Threw e)
      | Ok (svc', evs, prediction) =>
          ({| now := now w; timers := timers w;
              chartService := chartService w;
              gameService := svc'; game := game w;
              emitted := emitted w ++ evs |}, Created prediction)
      end
  | GameService_makePrediction direction amount userId' =>
      match GameService.makePrediction (gameService w) direction amount
              userId' (now w) with
      | Err e => (w, Threw e)
      | Ok (svc', prediction) =>
          ({| now := now w; timers := timers w;
              chartService := chartService w;
              gameService := svc'; game := game w;
              emitted := emitted w |}, Created prediction)
      end
  end.

(** A run; it returns the last world and the predictions the calls of the
    run created, in order. *)
Fixpoint run (w : t) (evs : list Event) : t * list Prediction.t :=
  match evs with
  | [] => (w, [])
  | ev :: rest =>
      let '(w1, reply) := step w ev in
      let '(w2, created) := run w1 rest in
      (w2, match reply with
           | Created p => p :: created
           | _ => created
           end)
  end.

End World.

(** ** Settlement as the specification words it

    [directionActual = settlementPrice > referencePrice ? Up : Down],
    [result = direction == directionActual ? Win : Lose],
    [changePct = |settlementPrice - referencePrice| / referencePrice * 100],
    [payout = +/- round(amount * changePct / 100)]. *)

Module Settlement.

Definition directionActual (referencePrice settlementPrice : number)
  : PredictionDirection :=
  if gt settlementPrice referencePrice then up else down.

Definition outcome (p : Prediction.t)
    (referencePrice settlementPrice : number) : GameResultStatus :=
  if PredictionDirection_eqb (Prediction.direction p)
       (directionActual referencePrice settlementPrice)
  then win else lose.

Definition changePct (referencePrice settlementPrice : number) : number :=
  mul (div (Math_abs (sub settlementPrice referencePrice)) referencePrice)
      (of_Z 100).

Definition stakeShare (p : Prediction.t)
    (referencePrice settlementPrice : number) : number :=
  Math_round
    (div (mul (Prediction.amount p)
              (changePct referencePrice settlementPrice))
         (of_Z 100)).

Definition payout (p : Prediction.t)
    (referencePrice settlementPrice : number) : number :=
  match outcome p referencePrice settlementPrice with
  | win => stakeShare p referencePrice settlementPrice
  | _ => neg (stakeShare p referencePrice settlementPrice)
  end.

(** The change [handleGameResult] passes to [updateBalance]. *)
Definition applied (r : GameResult.t) : number :=
if GameResultStatus_eqb (GameResult.status r) win
then Game.amountChange r else neg (Game.amountChange r).


End Settlement.

(** ** Sample data *)

Module Sample.

Definition player : string := "player1".

Definition config : Game.GameConfig :=
  Game.mkConfig 60000 5000 (div (of_Z 195) (of_Z 100)) (of_Z 10000).

(** A fresh game of [main.tsx]: balance 10000, no streak. *)
Definition freshGame : Game.t := Game.new config player.

Definition runningGame : Game.t := Game.set_state freshGame running.

(** Stake 500 on a rise. *)
Definition stake500up : Prediction.t := Prediction.new up (of_Z 500) player 0.

(** The round opened at 150.00 and settled at 153.00. *)
Definition rise150to153 : GameResult.t :=
  GameService.settlePrediction (div (of_Z 18) (of_Z 10))
    (of_Z 150) (of_Z 153) 60000 stake500up.

(** [main.tsx]: [new ChartService(150, 1000, 0.01)], [new GameService(chart)]
    with its defaults, and the game above. *)
Definition setup : World.Setup :=
World.mkSetup (of_Z 150) 1000 lit_0_01 (of_Z 0) 180
  60000 5000 (div (of_Z 18) (of_Z 10)) config player.

Definition half : number := div (of_Z 1) (of_Z 2).
Definition threeQuarters : number := div (of_Z 3) (of_Z 4).

(** The application right after [main.tsx] ran at time 0, every draw of the
    constructor being 0.5 (all initial prices are 150). *)
Definition world0 : World.t := World.boot setup 0 (fun _ => half).


(** A running game with balance 100, a stake of 100 on a fall, and a round
    that opened at 100 and settled at 350. *)
Definition gameWith100 : Game.t := Game.set_balance runningGame (of_Z 100).

Definition stake100down : Prediction.t :=
Prediction.new down (of_Z 100) player 0.

Definition surge100to350 : GameResult.t :=
GameService.settlePrediction (div (of_Z 18) (of_Z 10))
  (of_Z 100) (of_Z 350) 60000 stake100down.

(** A volatile feed: volatility 1, four points, rounds of 3 s, 1 s apart. *)
Definition volatileSetup : World.Setup :=
World.mkSetup (of_Z 150) 1000 (of_Z 1) (of_Z 0) 4
  3000 1000 (div (of_Z 18) (of_Z 10)) config player.

(** On it: start, stake the whole balance on a fall, and let the timers
    fire up to the first settlement (ticks and countdowns of three seconds,
    the tick of the fourth, then the cycle), every draw being 0.75. *)
Definition volatileRun : list World.Event :=
[World.Game_start; World.Game_makePrediction down (of_Z 10000)]
  ++ repeat (World.Fire threeQuarters) 8.




(** Sixty-one ticks of the chart after [main.tsx], then a direct call of
    the game service. *)
Definition lateCall : list World.Event :=
repeat (World.Fire half) 61
  ++ [World.GameService_makePrediction up (of_Z 500) player].

(** On the volatile feed: start, stake on a fall, let one second pass (a
    tick and a countdown), and stop in the middle of the round. *)
Definition stopMidRound : list World.Event :=
[World.Game_start; World.Game_makePrediction down (of_Z 10000);
 World.Fire threeQuarters; World.Fire threeQuarters; World.Game_stop].

(** Then the timers that are left fire: three ticks and the cycle. *)
Definition afterStop : list World.Event :=
repeat (World.Fire threeQuarters) 4.

End Sample.

(** ** What a run has to keep *)

Module Invariant.

(** The timers of the game service: its cycle and its pending round. *)
Definition is_service (t : Timers.Timer) : bool :=
match Timers.callback t with
| GameService_cycle | GameService_startNewRound => true
| _ => false
end.

Definition is_countdown (t : Timers.Timer) : bool :=
match Timers.callback t with
| Game_countdown => true
| _ => false
end.

(** The predictions that wait for their settlement: those of the current
    round while it is active. *)
Definition openPredictions (svc : GameService.t) : list Prediction.t :=
match GameService.currentRound svc with
| Some round =>
    if GameRound.isActive round then GameRound.predictions round else []
| None => []
end.

(** The results [handleGameResult] does not skip. *)
Definition own (g : Game.t) (r : GameResult.t) : bool :=
String.eqb (Prediction.userId (GameResult.prediction r)) (Game.userId g).

(** The results carried by the [result] events of a list of events. *)
Fixpoint resultsEmitted (evs : list GameEvent) : list GameResult.t :=
match evs with
| [] => []
| result_event r _ :: rest => r :: resultsEmitted rest
| _ :: rest => resultsEmitted rest
end.

(** The events of a settlement. *)
Definition settlementEvent (e : GameEvent) : Prop :=
match e with
| balance_changed _ _ | result_event _ _ => True
| _ => False
end.



(** The countdown of the game: every pending countdown timer is the one
    the game remembers, and a game that is not running remembers none. *)
Definition tidy (w : World.t) : Prop :=
(forall t, In t (Timers.pending (World.timers w)) ->
           is_countdown t = true ->
           Game.countdownIntervalId (World.game w) = Some (Timers.tid t))
/\ (Game.state (World.game w) <> running ->
    Game.countdownIntervalId (World.game w) = None).

(** A stopped game: not running, and no countdown pending. *)
Definition quiet (w : World.t) : Prop :=
Game.state (World.game w) <> running
/\ forall t, In t (Timers.pending (World.timers w)) -> is_countdown t = false.

End Invariant.

(** ** Listener lists

    [ChartService.subscribeToUpdates], [GameService.subscribeToResults] and
    [Game.addEventListener] keep their callbacks the same way: [push] to
    subscribe, and a returned closure that removes the callback with
    [indexOf] and [splice(index, 1)].  A callback is known by its identity. *)

Module Listeners.

Definition subscribe (listeners : list Z) (callback : Z) : list Z :=
  listeners ++ [callback].

(** The closure [subscribe] returns. *)
Definition unsubscribe (listeners : list Z) (callback : Z) : list Z :=
  let index := JsArray.indexOf listeners callback in
  if negb (index =? -1) then JsArray.splice listeners index 1
  else listeners.

End Listeners.

(** ** services/AudioService

    Of an audio element the model keeps the volume, the loop flag and
    whether it plays.  The two maps hold the same five keys from the
    constructor on, so they are total functions of the audio type. *)

(** [Math.min(a, b)]: NaN if either argument is, and [-0] below [+0]. *)
Definition Math_min (a b : number) : number :=
  if isNaN a || isNaN b then S754_nan
  else if lt a b then a
  else if lt b a then b
  else match a with S754_zero true => a | _ => b end.

Module AudioService.

Inductive AudioType : Type := bgm | win | lose | countdown | click.

Record AudioInfo : Type := mkInfo {
  url : string;
  volume : number;
  loop : bool
}.

Record Element : Type := mkElement {
  elementVolume : number;
  elementLoop : bool;
  playing : bool
}.

Record t : Type := mk {
  audioElements : AudioType -> Element;
  isMuted : bool;
  masterVolume : number
}.

(** The table the constructor fills. *)
Definition audioInfo (type : AudioType) : AudioInfo :=
  match type with
  | bgm => mkInfo "/audio/background.mp3" (div (of_Z 5) (of_Z 10)) true
  | win => mkInfo "/audio/win.mp3" (div (of_Z 7) (of_Z 10)) false
  | lose => mkInfo "/audio/lose.mp3" (div (of_Z 7) (of_Z 10)) false
  | countdown => mkInfo "/audio/countdown.mp3" (div (of_Z 6) (of_Z 10)) false
  | click => mkInfo "/audio/click.mp3" (div (of_Z 5) (of_Z 10)) false
  end.

Definition AudioType_eqb (a b : AudioType) : bool :=
  match a, b with
  | bgm, bgm | win, win | lose, lose | countdown, countdown | click, click =>
      true
  | _, _ => false
  end.

(** The constructor, with [preloadAudio]. *)
Definition new : t :=
  {| audioElements := fun type =>
       mkElement (mul (volume (audioInfo type)) (of_Z 1))
                 (loop (audioInfo type)) false;
     isMuted := false;
     masterVolume := of_Z 1 |}.

Definition setPlaying (this : t) (type : AudioType) (b : bool) : t :=
  {| audioElements := fun type' =>
       if AudioType_eqb type' type
       then mkElement (elementVolume (audioElements this type'))
                      (elementLoop (audioElements this type')) b
       else audioElements this type';
     isMuted := isMuted this;
     masterVolume := masterVolume this |}.

Definition playAudio (this : t) (type : AudioType) : t :=
  if isMuted this then this else setPlaying this type true.

Definition stopAudio (this : t) (type : AudioType) : t :=
  setPlaying this type false.

(** [forEach] over the elements: the volume of each becomes [f type]. *)
Definition setElementVolumes (this : t) (f : AudioType -> number)
    (muted : bool) (master : number) : t :=
  {| audioElements := fun type =>
       mkElement (f type) (elementLoop (audioElements this type))
                 (playing (audioElements this type));
     isMuted := muted;
     masterVolume := master |}.

Definition setVolume (this : t) (volume' : number) : t :=
  let master := Math_max (of_Z 0) (Math_min (of_Z 1) volume') in
  setElementVolumes this
    (fun type => mul (volume (audioInfo type)) master)
    (isMuted this) master.

Definition mute (this : t) : t :=
  setElementVolumes this (fun _ => of_Z 0) true (masterVolume this).

Definition unmute (this : t) : t :=
  setElementVolumes this
    (fun type => mul (volume (audioInfo type)) (masterVolume this))
    false (masterVolume this).

(** The public methods, and a service after a sequence of calls. *)
Inductive Call : Type :=
| playBackgroundMusic
| stopBackgroundMusic
| playWinSound
| playLoseSound
| playCountdownSound
| playClickSound
| call_setVolume (volume' : number)
| call_mute
| call_unmute.

Definition call (this : t) (c : Call) : t :=
  match c with
  | playBackgroundMusic => playAudio this bgm
  | stopBackgroundMusic => stopAudio this bgm
  | playWinSound => playAudio this win
  | playLoseSound => playAudio this lose
  | playCountdownSound => playAudio this countdown
  | playClickSound => playAudio this click
  | call_setVolume volume' => setVolume this volume'
  | call_mute => mute this
  | call_unmute => unmute this
  end.

Definition calls (this : t) (cs : list Call) : t := fold_left call cs this.

End AudioService.

(** ** components/PredictionComponent *)

Module PredictionComponent.

(** [adjustAmount(delta)] on the amount the component holds; the value is
    the amount it stores. *)
Definition adjustAmount (amount delta : number) : number :=
  let newAmount := add amount delta in
  if lt newAmount (of_Z 100) then of_Z 100
  else if gt newAmount (of_Z 10000) then of_Z 10000
  else newAmount.

End PredictionComponent.

(** ** What every run reaches *)

Module Reach.

(** Timestamps one [step] apart. *)
Fixpoint spaced (step : Z) (l : list ChartDataPoint) : Prop :=
  match l with
  | [] => True
  | a :: rest =>
      match rest with
      | [] => True
      | b :: _ => timestamp b = timestamp a + step
      end /\ spaced step rest
  end.

Fixpoint nondecreasing (l : list Z) : Prop :=
  match l with
  | [] => True
  | a :: rest =>
      match rest with
      | [] => True
      | b :: _ => a <= b
      end /\ nondecreasing rest
  end.

(** The balance and the streak a list of delivered results leads to. *)
Definition balanceAfter (start : number) (rs : list GameResult.t) : number :=
  fold_left (fun b r => add b (Settlement.applied r)) rs start.

Definition streakAfter (start : number) (rs : list GameResult.t) : number :=
  fold_left
    (fun n r => if GameResultStatus_eqb (GameResult.status r) win
                then add n (of_Z 1) else of_Z 0)
    rs start.

Definition countdownWithin (bound : Z) (e : GameEvent) : Prop :=
  match e with
  | countdown remainingSeconds => 0 <= remainingSeconds <= bound
  | _ => True
  end.

(** The clock of the application against its stamps. *)
Record clocked (w : World.t) : Prop := mkClocked {
  round_started :
    forall round,
      GameService.currentRound (World.gameService w) = Some round ->
      GameRound.startTime round <= World.now w
      /\ GameRound.endTime round
         = GameRound.startTime round
           + GameService.roundDurationMs (World.gameService w);
  predictions_stamped :
    forall round p,
      GameService.currentRound (World.gameService w) = Some round ->
      In p (GameRound.predictions round) ->
      GameRound.startTime round <= Prediction.timestamp p <= World.now w;
  results_stamped :
    forall r,
      In r (GameService.results (World.gameService w)) ->
      Prediction.timestamp (GameResult.prediction r) <= GameResult.timestamp r
      /\ GameResult.timestamp r <= World.now w;
  results_ordered :
    nondecreasing
      (map GameResult.timestamp (GameService.results (World.gameService w)));
  countdowns_bounded :
    Forall
      (countdownWithin
         ((Z.max 0 (GameService.roundDurationMs (World.gameService w)) + 999)
          / 1000))
      (World.emitted w)
}.

(** When the settlement of the current round is due; [now0] is the time
    [main.tsx] ran. *)
Record timed (now0 : Z) (w : World.t) : Prop := mkTimed {
  timed_round :
    forall round,
      GameService.currentRound (World.gameService w) = Some round ->
      now0 <= GameRound.startTime round
      /\ GameRound.endTime round
         = GameRound.startTime round
           + GameService.roundDurationMs (World.gameService w);
  timed_open :
    forall round c,
      GameService.currentRound (World.gameService w) = Some round ->
      GameRound.isActive round = true ->
      filter Invariant.is_service (Timers.pending (World.timers w)) = [c] ->
      Timers.due c
      = GameRound.endTime round
        + (if GameRound.startTime round =? now0
           then GameService.roundIntervalMs (World.gameService w) else 0);
  timed_closed :
    forall round c s,
      GameService.currentRound (World.gameService w) = Some round ->
      GameRound.isActive round = false ->
      filter Invariant.is_service (Timers.pending (World.timers w)) = [c; s] ->
      Timers.due c
      = Timers.due s + GameService.roundDurationMs (World.gameService w)
      /\ now0 < Timers.due s
}.

(** The countdown timers of the table, and their number against the state
    of the game. *)
Definition countdownTimers (w : World.t) : list Timers.Timer :=
  filter Invariant.is_countdown (Timers.pending (World.timers w)).

Definition oneCountdown (w : World.t) : Prop :=
  length (countdownTimers w)
  = (if GameState_eqb (Game.state (World.game w)) running then 1 else 0)%nat
  /\ forall t, In t (countdownTimers w) -> Timers.period t = Some 1000.

End Reach.

(** * Properties *)

(** ** Facts on binary64 arithmetic *)

Lemma abs_binary_round_aux (s : bool) (m e : Z) (l : location) :
  SFabs (binary_round_aux prec emax s m e l)
  = binary_round_aux prec emax false m e l.
Proof.
  unfold binary_round_aux.
  destruct (shr_fexp prec emax m e l) as [mrs' e'].
  destruct (shr_fexp prec emax _ e' loc_Exact) as [mrs'' e''].
  destruct (shr_m mrs''); try reflexivity.
  destruct (e'' <=? emax - prec); reflexivity.
Qed.

(** A positive number is a positive finite value or plus infinity. *)
Lemma positive_inv (x : number) :
  lt (of_Z 0) x = true ->
  x = S754_infinity false \/ exists m e, x = S754_finite false m e.
Proof.
  destruct x as [s | s | | s m e]; simpl; try discriminate.
  - destruct s; [discriminate | auto].
  - destruct s; [discriminate | eauto].
Qed.

Lemma positive_truthy (x : number) : lt (of_Z 0) x = true -> truthy x = true.
Proof.
  intros H; destruct (positive_inv x H) as [-> | (m & e & ->)]; reflexivity.
Qed.

(** Dividing by a positive number commutes with the absolute value. *)
Lemma abs_div_positive (x y : number) :
  lt (of_Z 0) y = true -> Math_abs (div x y) = div (Math_abs x) y.
Proof.
  intros H; destruct (positive_inv y H) as [-> | (m & e & ->)].
  - destruct x as [s | s | | s mx ex]; reflexivity.
  - destruct x as [s | s | | s mx ex]; try reflexivity.
    unfold Math_abs, div; simpl.
    destruct (SFdiv_core_binary prec emax (Z.pos mx) ex (Z.pos m) e)
      as [[mz ez] lz].
    apply abs_binary_round_aux.
Qed.

(** So does multiplying by the literal 100. *)
Lemma abs_mul_100 (x : number) :
  Math_abs (mul x (of_Z 100)) = mul (Math_abs x) (of_Z 100).
Proof.
  destruct x as [s | s | | s mx ex]; try reflexivity.
  unfold Math_abs, mul; simpl.
  apply abs_binary_round_aux.
Qed.

(** ** Facts on the settled result *)

Lemma settlePrediction_prediction mult ref settle ts p :
  GameResult.prediction (GameService.settlePrediction mult ref settle ts p) = p.
Proof.
  unfold GameService.settlePrediction.
  destruct (GameResultStatus_eqb _ win); reflexivity.
Qed.

Lemma settlePrediction_startPrice mult ref settle ts p :
  GameResult.startPrice (GameService.settlePrediction mult ref settle ts p)
  = ref.
Proof.
  unfold GameService.settlePrediction.
  destruct (GameResultStatus_eqb _ win); reflexivity.
Qed.

Lemma settlePrediction_endPrice mult ref settle ts p :
  GameResult.endPrice (GameService.settlePrediction mult ref settle ts p)
  = if truthy settle then settle else ref.
Proof.
  unfold GameService.settlePrediction.
  destruct (GameResultStatus_eqb _ win); reflexivity.
Qed.

Lemma settlePrediction_status mult ref settle ts p :
  GameResult.status (GameService.settlePrediction mult ref settle ts p)
  = GameResult.status (GameResult.new p ref (Some settle) ts).
Proof.
  unfold GameService.settlePrediction.
  destruct (GameResultStatus_eqb _ win); reflexivity.
Qed.

(** For a settlement price that is not falsy, the status the constructor
    computes is the outcome of the specification. *)
Lemma status_is_outcome p ref settle ts :
  truthy settle = true ->
  GameResult.status (GameResult.new p ref (Some settle) ts)
  = Settlement.outcome p ref settle.
Proof.
  intros Ht.
  unfold GameResult.new, GameResult.calculateStatus,
    GameResult.getActualDirection, Settlement.outcome,
    Settlement.directionActual, Prediction.isCorrect; simpl.
  rewrite Ht.
  destruct (gt settle ref); [reflexivity |].
  destruct (lt settle ref); reflexivity.
Qed.

Lemma amountChange_is_stakeShare mult ref settle ts p :
  lt (of_Z 0) ref = true ->
  lt (of_Z 0) settle = true ->
  Game.amountChange (GameService.settlePrediction mult ref settle ts p)
  = Settlement.stakeShare p ref settle.
Proof.
  intros Href Hset.
  unfold Game.amountChange, Settlement.stakeShare, Settlement.changePct,
    GameResult.getPriceChangePercentage.
  rewrite settlePrediction_prediction, settlePrediction_startPrice,
    settlePrediction_endPrice, (positive_truthy _ Hset).
  rewrite abs_mul_100, (abs_div_positive _ _ Href).
  reflexivity.
Qed.

Lemma handleGameResult_balance g r :
  Prediction.userId (GameResult.prediction r) = Game.userId g ->
  Game.balance (fst (Game.handleGameResult g r))
  = add (Game.balance g)
        (if GameResultStatus_eqb (GameResult.status r) win
         then Game.amountChange r else neg (Game.amountChange r)).
Proof.
  intros Hu. unfold Game.handleGameResult.
  rewrite Hu, String.eqb_refl; simpl.
  destruct (GameResultStatus_eqb (GameResult.status r) win); reflexivity.
Qed.

(** ** C1: the payout *)

(** C1.  A result delivered to the session for its own user, with positive
    reference and settlement prices, moves the balance by the payout of the
    specification: plus [round(amount * changePct / 100)] on a win, minus it
    on a loss, with [changePct = |settlement - reference| / reference * 100].
    At start price 150, stake 500 on a rise and settlement price 153 the
    change is 2 per cent, the result a win, the payout 10, and the balance
    and the streak go from 10000 and 0 to 10010 and 1. *)
Theorem payout_is_stake_share_of_price_change :
  (forall (g : Game.t) (p : Prediction.t) (ref settle mult : number) (ts : Z),
      Prediction.userId p = Game.userId g ->
      lt (of_Z 0) ref = true ->
      lt (of_Z 0) settle = true ->
      let r := GameService.settlePrediction mult ref settle ts p in
      GameResult.status r = Settlement.outcome p ref settle
      /\ Game.balance (fst (Game.handleGameResult g r))
         = add (Game.balance g) (Settlement.payout p ref settle))
  /\ (Settlement.changePct (of_Z 150) (of_Z 153) = of_Z 2
      /\ GameResult.status Sample.rise150to153 = win
      /\ Game.amountChange Sample.rise150to153 = of_Z 10
      /\ Settlement.payout Sample.stake500up (of_Z 150) (of_Z 153) = of_Z 10
      /\ Game.balance Sample.runningGame = of_Z 10000
      /\ Game.balance
           (fst (Game.handleGameResult Sample.runningGame Sample.rise150to153))
         = of_Z 10010
      /\ Game.winStreak
           (fst (Game.handleGameResult Sample.runningGame Sample.rise150to153))
         = of_Z 1).
Proof.
  split.
  - intros g p ref settle mult ts Hu Href Hset r.
    assert (Hst : GameResult.status r = Settlement.outcome p ref settle).
    { subst r. rewrite settlePrediction_status.
      apply status_is_outcome, positive_truthy, Hset. }
    split; [exact Hst |].
    rewrite handleGameResult_balance
      by (subst r; rewrite settlePrediction_prediction; exact Hu).
    subst r. rewrite Hst, amountChange_is_stakeShare by assumption.
    unfold Settlement.payout.
    destruct (Settlement.outcome p ref settle); reflexivity.
  - repeat split; vm_compute; reflexivity.
Qed.

Lemma payout_is_stake_share_of_price_change_witness :
  Game.balance
    (fst (Game.handleGameResult Sample.runningGame
            (GameService.settlePrediction (of_Z 2) (of_Z 150) (of_Z 153) 60000
               Sample.stake500up)))
  = add (Game.balance Sample.runningGame)
        (Settlement.payout Sample.stake500up (of_Z 150) (of_Z 153)).
Proof.
  apply (proj1 payout_is_stake_share_of_price_change
           Sample.runningGame Sample.stake500up (of_Z 150) (of_Z 153)
           (of_Z 2) 60000); reflexivity.
Defined.

(** ** C5: the flat round *)

Lemma SFcompare_Eq_sym (x y : number) :
  SFcompare x y = Some Eq -> SFcompare y x = Some Eq.
Proof.
  destruct x as [sx | sx | | sx mx ex], y as [sy | sy | | sy my ey]; simpl;
    try discriminate; try reflexivity;
    try (destruct sx; discriminate); try (destruct sy; discriminate).
  - destruct sx, sy; intros H; try discriminate; reflexivity.
  - destruct sx, sy; try discriminate.
    + destruct (Z.compare_spec ex ey) as [-> | _ | _]; try discriminate.
      rewrite Z.compare_refl.
      change (Pos.compare_cont Eq mx my) with (Pos.compare mx my).
      change (Pos.compare_cont Eq my mx) with (Pos.compare my mx).
      destruct (Pos.compare_spec mx my) as [-> | _ | _]; try discriminate.
      now rewrite Pos.compare_refl.
    + destruct (Z.compare_spec ex ey) as [-> | _ | _]; try discriminate.
      rewrite Z.compare_refl.
      change (Pos.compare_cont Eq mx my) with (Pos.compare mx my).
      change (Pos.compare_cont Eq my mx) with (Pos.compare my mx).
      destruct (Pos.compare_spec mx my) as [-> | _ | _]; try discriminate.
      now rewrite Pos.compare_refl.
Qed.

Lemma eq_not_gt (x y : number) : eq x y = true -> gt x y = false.
Proof.
  unfold eq, gt, SFeqb, SFltb. intros H.
  destruct (SFcompare x y) as [[| |] |] eqn:E; try discriminate.
  now rewrite (SFcompare_Eq_sym _ _ E).
Qed.

Lemma eq_not_lt (x y : number) : eq x y = true -> lt x y = false.
Proof.
  unfold eq, lt, SFeqb, SFltb. intros H.
  destruct (SFcompare x y) as [[| |] |]; try discriminate; reflexivity.
Qed.

Lemma gt_irrefl (x : number) : gt x x = false.
Proof.
  unfold gt, SFltb.
  destruct x as [s | s | | s m e]; simpl; try reflexivity.
  - destruct s; reflexivity.
  - destruct s; rewrite Z.compare_refl;
      change (Pos.compare_cont Eq m m) with (Pos.compare m m);
      rewrite Pos.compare_refl; reflexivity.
Qed.

Lemma eq_positive (x y : number) :
  eq x y = true -> lt (of_Z 0) y = true -> lt (of_Z 0) x = true.
Proof.
  intros He Hy.
  destruct (positive_inv y Hy) as [-> | (m & e & ->)];
    destruct x as [s | s | | s mx ex]; simpl in *;
    try discriminate; try (destruct s; discriminate || reflexivity).
Qed.

(** C5.  When the settlement price equals the reference price the actual
    direction of the result is [down]; with a positive price, a prediction
    of a fall is then a win and a prediction of a rise a loss. *)
Theorem flat_round_counts_as_down
    (p : Prediction.t) (ref settle mult : number) (ts : Z) :
  eq settle ref = true ->
  let r := GameService.settlePrediction mult ref settle ts p in
  GameResult.getActualDirection r = down
  /\ (lt (of_Z 0) ref = true ->
      (Prediction.direction p = down -> GameResult.status r = win)
      /\ (Prediction.direction p = up -> GameResult.status r = lose)).
Proof.
  intros He r. split.
  - unfold GameResult.getActualDirection. subst r.
    rewrite settlePrediction_startPrice, settlePrediction_endPrice.
    destruct (truthy settle).
    + rewrite (eq_not_gt _ _ He).
      destruct (lt settle ref); reflexivity.
    + rewrite gt_irrefl. destruct (lt ref ref); reflexivity.
  - intros Href. subst r.
    rewrite settlePrediction_status,
      (status_is_outcome _ _ _ _ (positive_truthy _ (eq_positive _ _ He Href))).
    unfold Settlement.outcome, Settlement.directionActual.
    rewrite (eq_not_gt _ _ He).
    split; intros ->; reflexivity.
Qed.

Lemma flat_round_counts_as_down_witness :
  let r := GameService.settlePrediction (of_Z 2) (of_Z 150) (of_Z 150) 60000
             Sample.stake100down in
  GameResult.getActualDirection r = down /\ GameResult.status r = win.
Proof.
  pose proof (flat_round_counts_as_down Sample.stake100down (of_Z 150)
                (of_Z 150) (of_Z 2) 60000 eq_refl) as H.
  split.
  - exact (proj1 H).
  - exact (proj1 (proj2 H eq_refl) eq_refl).
Defined.

(** Start price 150, stake 500 on a rise, settlement price 150: the change
    is 0 per cent, the result a loss, the payout 0, and the streak is reset. *)
Lemma flat_round_scenario :
  let r := GameService.settlePrediction (of_Z 2) (of_Z 150) (of_Z 150) 60000
             Sample.stake500up in
  let g := Game.set_winStreak Sample.runningGame (of_Z 3) in
  Settlement.changePct (of_Z 150) (of_Z 150) = of_Z 0
  /\ GameResult.status r = lose
  /\ Game.amountChange r = of_Z 0
  /\ eq (Game.balance (fst (Game.handleGameResult g r))) (Game.balance g)
     = true
  /\ Game.winStreak (fst (Game.handleGameResult g r)) = of_Z 0.
Proof. vm_compute. repeat split. Qed.

(** The constructor tests the settlement price for truthiness: a price of 0
    (which the feed, floored at 0.01, never produces) is taken as absent,
    the end price is then the start price and the status stays pending. *)
Lemma settlement_price_zero_is_pending (p : Prediction.t) (ref : number)
    (ts : Z) :
  GameResult.status (GameResult.new p ref (Some (of_Z 0)) ts) = pending
  /\ GameResult.endPrice (GameResult.new p ref (Some (of_Z 0)) ts) = ref.
Proof. split; reflexivity. Qed.

(** ** C7: the win streak *)

Lemma handleGameResult_winStreak g r :
  Prediction.userId (GameResult.prediction r) = Game.userId g ->
  Game.winStreak (fst (Game.handleGameResult g r))
  = if GameResultStatus_eqb (GameResult.status r) win
    then add (Game.winStreak g) (of_Z 1) else of_Z 0.
Proof.
  intros Hu. unfold Game.handleGameResult.
  rewrite Hu, String.eqb_refl; simpl.
  destruct (GameResultStatus_eqb (GameResult.status r) win); reflexivity.
Qed.

Lemma handleGameResult_foreign g r :
  Prediction.userId (GameResult.prediction r) <> Game.userId g ->
  Game.handleGameResult g r = (g, []).
Proof.
  intros Hu. unfold Game.handleGameResult.
  destruct (String.eqb_spec (Prediction.userId (GameResult.prediction r))
              (Game.userId g)) as [E | _]; [contradiction | reflexivity].
Qed.

Lemma startCountdown_winStreak g tbl now :
  Game.winStreak (fst (Game.startCountdown g tbl now)) = Game.winStreak g.
Proof.
  unfold Game.startCountdown, Game.stopCountdown.
  destruct (Game.countdownIntervalId g); reflexivity.
Qed.

Lemma start_winStreak g svc chart tbl now :
  Game.winStreak (fst (fst (fst (Game.start g svc chart tbl now))))
  = Game.winStreak g.
Proof.
  unfold Game.start.
  destruct (GameState_eqb (Game.state g) running); [reflexivity |].
  destruct (GameService.getCurrentRound svc chart now) as [svc' round].
  pose proof (startCountdown_winStreak (Game.set_state g running) tbl now) as H.
  destruct (Game.startCountdown (Game.set_state g running) tbl now)
    as [g2 tbl'].
  exact H.
Qed.

Lemma stop_winStreak g tbl :
  Game.winStreak (fst (Game.stop g tbl)) = Game.winStreak g.
Proof.
  unfold Game.stop, Game.stopCountdown.
  destruct (negb (GameState_eqb (Game.state g) running)); [reflexivity |].
  simpl. destruct (Game.countdownIntervalId g); reflexivity.
Qed.

(** Whatever happens in the application, the streak moves only when the
    timer that fires is the cycle of the game service, which settles. *)
Lemma step_winStreak (w : World.t) (ev : World.Event) :
  (forall random before timer after,
      ev = World.Fire random ->
      Timers.pick (Timers.pending (World.timers w))
      = Some (before, timer, after) ->
      Timers.callback timer <> GameService_cycle) ->
  Game.winStreak (World.game (fst (World.step w ev)))
  = Game.winStreak (World.game w).
Proof.
  intros Hcycle. destruct ev as [random | ms | | | d a | d a u]; simpl.
  - unfold World.fire.
    destruct (Timers.pick (Timers.pending (World.timers w)))
      as [[[before timer] after] |] eqn:Hp; [| reflexivity].
    specialize (Hcycle random before timer after eq_refl eq_refl).
    unfold World.runCallback.
    destruct (Timers.callback timer); try contradiction; try reflexivity.
    cbn [World.game World.gameService World.chartService World.now].
    destruct (Game.countdownTick _ _ _ _); reflexivity.
  - reflexivity.
  - pose proof (start_winStreak (World.game w) (World.gameService w)
                  (World.chartService w) (World.timers w) (World.now w)) as H.
    destruct (Game.start _ _ _ _ _) as [[[g' svc'] tbl'] evs]. exact H.
  - pose proof (stop_winStreak (World.game w) (World.timers w)) as H.
    destruct (Game.stop _ _) as [g' tbl']. exact H.
  - destruct (Game.makePrediction _ _ _ _ _ _) as [[[svc' evs] p] | e];
      reflexivity.
  - destruct (GameService.makePrediction _ _ _ _ _) as [[svc' p] | e];
      reflexivity.
Qed.

(** C7.  A result delivered to the session for its own user sets the streak
    to its former value plus 1 when it is a win and to 0 when it is a loss.
    Nothing else moves the streak: not a result of another user, not
    [updateBalance], [start], [stop] or [updateConfig], and no event of the
    application other than the firing of the settlement cycle. *)
Theorem winStreak_bookkeeping :
  (forall g r,
      Prediction.userId (GameResult.prediction r) = Game.userId g ->
      GameResult.status r = win ->
      Game.winStreak (fst (Game.handleGameResult g r))
      = add (Game.winStreak g) (of_Z 1))
  /\ (forall g r,
      Prediction.userId (GameResult.prediction r) = Game.userId g ->
      GameResult.status r = lose ->
      Game.winStreak (fst (Game.handleGameResult g r)) = of_Z 0)
  /\ (forall g r,
      Prediction.userId (GameResult.prediction r) <> Game.userId g ->
      Game.winStreak (fst (Game.handleGameResult g r)) = Game.winStreak g)
  /\ (forall g change,
      Game.winStreak (fst (Game.updateBalance g change)) = Game.winStreak g)
  /\ (forall g svc chart tbl now,
      Game.winStreak (fst (fst (fst (Game.start g svc chart tbl now))))
      = Game.winStreak g)
  /\ (forall g tbl,
      Game.winStreak (fst (Game.stop g tbl)) = Game.winStreak g)
  /\ (forall g partial,
      Game.winStreak (Game.updateConfig g partial) = Game.winStreak g)
  /\ (forall w ev,
      (forall random before timer after,
          ev = World.Fire random ->
          Timers.pick (Timers.pending (World.timers w))
          = Some (before, timer, after) ->
          Timers.callback timer <> GameService_cycle) ->
      Game.winStreak (World.game (fst (World.step w ev)))
      = Game.winStreak (World.game w)).
Proof.
  repeat apply conj.
  - intros g r Hu Hs. rewrite handleGameResult_winStreak, Hs by exact Hu.
    reflexivity.
  - intros g r Hu Hs. rewrite handleGameResult_winStreak, Hs by exact Hu.
    reflexivity.
  - intros g r Hu. now rewrite handleGameResult_foreign.
  - reflexivity.
  - apply start_winStreak.
  - apply stop_winStreak.
  - reflexivity.
  - apply step_winStreak.
Qed.

Lemma winStreak_bookkeeping_witness :
  Game.winStreak
    (fst (Game.handleGameResult Sample.runningGame Sample.rise150to153))
  = add (Game.winStreak Sample.runningGame) (of_Z 1)
  /\ Game.winStreak
       (fst (Game.handleGameResult Sample.gameWith100 Sample.surge100to350))
     = of_Z 0.
Proof.
  split.
  - apply (proj1 winStreak_bookkeeping); reflexivity.
  - apply (proj1 (proj2 winStreak_bookkeeping)); reflexivity.
Defined.

(** Three wins in a row from a fresh game: the streak is 3. *)
Lemma three_wins_streak_3 :
  Game.winStreak
    (fst (Game.handleGameResults Sample.runningGame
            [Sample.rise150to153; Sample.rise150to153; Sample.rise150to153]))
  = of_Z 3.
Proof. vm_compute. reflexivity. Qed.

(** ** C9: the guard on the amount *)

Lemma GameState_eqb_spec (a b : GameState) :
  reflect (a = b) (GameState_eqb a b).
Proof. destruct a, b; constructor; congruence. Qed.

Lemma direction_literal (d : PredictionDirection) :
  (if PredictionDirection_eqb d up then up else down) = d.
Proof. destruct d; reflexivity. Qed.

Lemma GameService_makePrediction_active svc round d a u now :
  GameService.currentRound svc = Some round ->
  GameRound.isActive round = true ->
  GameService.makePrediction svc d a u now
  = Ok (GameService.set_currentRound svc
          (Some (GameRound.mk (GameRound.startTime round)
                   (GameRound.endTime round) (GameRound.startPrice round)
                   (GameRound.predictions round ++ [Prediction.new d a u now])
                   true)),
        Prediction.new d a u now).
Proof.
  intros Hr Ha. unfold GameService.makePrediction, GameRound.addPrediction.
  rewrite Hr, Ha, direction_literal. reflexivity.
Qed.


(** A call that throws leaves the application as it was. *)
Lemma step_threw_unchanged (w : World.t) (ev : World.Event) (e : Error) :
  snd (World.step w ev) = World.Threw e -> fst (World.step w ev) = w.
Proof.
  destruct ev as [random | ms | | | d a | d a u]; simpl;
    try discriminate.
  - destruct (Game.start _ _ _ _ _) as [[[g' svc'] tbl'] evs]; discriminate.
  - destruct (Game.stop _ _) as [g' tbl']; discriminate.
  - destruct (Game.makePrediction _ _ _ _ _ _) as [[[svc' evs] p] | e'];
      [discriminate | reflexivity].
  - destruct (GameService.makePrediction _ _ _ _ _) as [[svc' p] | e'];
      [discriminate | reflexivity].
Qed.

(** C9, as the code has it.  [Game.makePrediction] first refuses a game that
    is not running (with the not-running error, whatever the amount).  On a
    running game it fails with the invalid-amount error whenever
    [amount <= 0] or [amount > balance]; a failing call records nothing.
    Otherwise, with an active current round, the game service appends the
    created prediction to the round and returns it (the method of the game
    returns nothing). *)
Theorem makePrediction_amount_guard
    (g : Game.t) (svc : GameService.t) (chart : ChartService.t)
    (d : PredictionDirection) (amount : number) (now : Z) :
  (Game.state g <> running ->
   Game.makePrediction g svc chart d amount now = Err GameNotRunning)
  /\ (Game.state g = running ->
      le amount (of_Z 0) = true \/ gt amount (Game.balance g) = true ->
      Game.makePrediction g svc chart d amount now = Err InvalidAmount)
  /\ (forall w e,
      snd (World.step w (World.Game_makePrediction d amount)) = World.Threw e ->
      fst (World.step w (World.Game_makePrediction d amount)) = w)
  /\ (Game.state g = running ->
      le amount (of_Z 0) = false ->
      gt amount (Game.balance g) = false ->
      forall round,
        GameService.currentRound svc = Some round ->
        GameRound.isActive round = true ->
        let p := Prediction.new d amount (Game.userId g) now in
        exists svc' evs round',
          Game.makePrediction g svc chart d amount now = Ok (svc', evs, p)
          /\ GameService.makePrediction svc d amount (Game.userId g) now
             = Ok (svc', p)
          /\ GameService.currentRound svc' = Some round'
          /\ GameRound.predictions round'
             = GameRound.predictions round ++ [p]).
Proof.
  repeat apply conj.
  - intros Hs. unfold Game.makePrediction.
    destruct (GameState_eqb_spec (Game.state g) running);
      [contradiction | reflexivity].
  - intros Hs Hbad. unfold Game.makePrediction. rewrite Hs.
    cbn [GameState_eqb negb].
    destruct Hbad as [-> | ->]; [reflexivity |].
    now rewrite orb_true_r.
  - intros w e. apply step_threw_unchanged.
  - intros Hs Hle Hgt round Hr Ha p.
    unfold Game.makePrediction. rewrite Hs, Hle, Hgt.
    cbn [GameState_eqb negb orb].
    rewrite (GameService_makePrediction_active _ _ _ _ _ _ Hr Ha).
    do 3 eexists. repeat split.
Qed.

Lemma makePrediction_amount_guard_witness :
  Game.makePrediction Sample.runningGame (World.gameService Sample.world0)
    (World.chartService Sample.world0) up (of_Z 0) 0
  = Err InvalidAmount.
Proof.
  apply (proj1 (proj2 (makePrediction_amount_guard Sample.runningGame
                         (World.gameService Sample.world0)
                         (World.chartService Sample.world0) up (of_Z 0) 0))).
  - reflexivity.
  - left. reflexivity.
Defined.

(** C9 as stated fails: right after [main.tsx], before [start()], the game
    is waiting, and a stake of 0 is refused with the not-running error, not
    with the invalid-amount one. *)
Lemma stake_0_on_waiting_game_is_not_InvalidAmount :
  le (of_Z 0) (of_Z 0) = true
  /\ World.step Sample.world0 (World.Game_makePrediction up (of_Z 0))
     = (Sample.world0, World.Threw GameNotRunning)
  /\ World.Threw GameNotRunning <> World.Threw InvalidAmount.
Proof.
  split; [reflexivity |]. split; [vm_compute; reflexivity | discriminate].
Qed.

(** ** C10: the loss is not capped by the stake *)

(** C10.  The amount taken on a loss is not capped by the stake.  A running
    game with balance 100 accepts a stake of 100 on a fall; when the round
    that opened at 100 settles at 350 (a change of 250 per cent) the result
    is a loss of 250, more than the stake, and the balance is -150.  On a
    volatile feed the whole application gets there by itself: the stake of
    the full balance of 10000 is accepted and the first settlement leaves
    the balance at -13750. *)
Theorem loss_can_exceed_stake :
  (exists (g : Game.t) (svc : GameService.t) (chart : ChartService.t)
          (amount ref settle mult : number) (now ts : Z)
          (svc' : GameService.t) (evs : list GameEvent) (p : Prediction.t),
      Game.makePrediction g svc chart down amount now = Ok (svc', evs, p)
      /\ gt amount (Game.balance g) = false
      /\ lt (of_Z 0) ref = true
      /\ lt (of_Z 0) settle = true
      /\ lt (of_Z 100) (Settlement.changePct ref settle) = true
      /\ let r := GameService.settlePrediction mult ref settle ts p in
         GameResult.status r = lose
         /\ lt (Prediction.amount p) (Game.amountChange r) = true
         /\ lt (Game.balance (fst (Game.handleGameResult g r))) (of_Z 0)
            = true)
  /\ (let start := World.boot Sample.volatileSetup 0 (fun _ => Sample.half) in
      let '(w, created) := World.run start Sample.volatileRun in
      Game.balance (World.game start) = of_Z 10000
      /\ map Prediction.amount created = [of_Z 10000]
      /\ map GameResult.status (GameService.results (World.gameService w))
         = [lose]
      /\ Game.balance (World.game w) = of_Z (-13750)).
Proof.
  split.
  - exists Sample.gameWith100, (World.gameService Sample.world0),
      (World.chartService Sample.world0), (of_Z 100), (of_Z 100), (of_Z 350),
      (of_Z 2), 0, 60000.
    do 3 eexists.
    split; [vm_compute; reflexivity |].
    repeat split; vm_compute; reflexivity.
  - vm_compute. repeat split; reflexivity.
Qed.

(** ** C6: settlement is a function of the round and the price *)





(** ** C3: predictions on a closed round *)





(** The first round of a cycle is closed by the first firing of the cycle
    interval, one round duration plus one round interval after it opened:
    under [main.tsx], at 61 s, past the end time 60 s of the round, a
    prediction is still accepted and recorded. *)
Lemma first_round_accepts_past_endTime :
  let '(w, created) := World.run Sample.world0 Sample.lateCall in
  World.now w = 61000
  /\ option_map GameRound.endTime
       (GameService.currentRound (World.gameService w)) = Some 60000
  /\ created = [Prediction.new up (of_Z 500) Sample.player 61000]
  /\ option_map GameRound.predictions
       (GameService.currentRound (World.gameService w)) = Some created.
Proof. vm_compute. repeat split. Qed.

(** ** C8: the price floor *)

Lemma lit_0_01_value : lit_0_01 = S754_finite false 5764607523034235 (-59).
Proof. vm_compute. reflexivity. Qed.

(** [Math.max(0.01, c)] is at least 0.01 as soon as [c] is a number. *)
Lemma Math_max_floor (c : number) :
  isNaN c = false ->
  lt (of_Z 0) (Math_max lit_0_01 c) = true
  /\ le lit_0_01 (Math_max lit_0_01 c) = true.
Proof.
  intros Hc. unfold Math_max. rewrite Hc, lit_0_01_value.
  cbn [isNaN orb].
  destruct (lt (S754_finite false 5764607523034235 (-59)) c) eqn:E.
  - split.
    + destruct c as [s | s | | s m e]; try discriminate;
        destruct s; try discriminate; reflexivity.
    + unfold le, SFleb. unfold lt, SFltb in E.
      destruct (SFcompare _ c) as [[| |] |]; try discriminate; reflexivity.
  - destruct (lt c (S754_finite false 5764607523034235 (-59)));
      split; reflexivity.
Qed.




(** The proviso is exact: [Math.max] hands a NaN candidate through. *)
Lemma generated_price_is_NaN_on_NaN_candidate
    (chart : ChartService.t) (now : Z) (random : number) :
  isNaN (ChartService.walkCandidate chart random) = true ->
  isNaN (price (snd (ChartService.generateNextDataPoint chart now random)))
  = true.
Proof.
  intros Hc. cbn [ChartService.generateNextDataPoint snd price].
  unfold Math_max. rewrite Hc, orb_true_r. reflexivity.
Qed.

(** The candidate is a number whenever nothing overflowed: a sum of finite
    values is never NaN. *)

Lemma shr_1_nonneg (mrs : shr_record) :
  0 <= shr_m mrs -> 0 <= shr_m (shr_1 mrs).
Proof.
  destruct mrs as [m r s]. destruct m as [| p | p]; simpl; try lia.
  destruct p; simpl; lia.
Qed.

Lemma iter_shr_1_nonneg (p : positive) :
  forall mrs, 0 <= shr_m mrs -> 0 <= shr_m (iter_pos shr_1 p mrs).
Proof.
  induction p as [p IH | p IH |]; simpl; intros mrs H.
  - apply IH, IH, shr_1_nonneg, H.
  - apply IH, IH, H.
  - apply shr_1_nonneg, H.
Qed.

Lemma shr_fexp_nonneg (m e : Z) (l : location) :
  0 <= m -> 0 <= shr_m (fst (shr_fexp prec emax m e l)).
Proof.
  intros Hm. unfold shr_fexp, shr.
  assert (H0 : 0 <= shr_m (shr_record_of_loc m l))
    by (destruct l as [| []]; exact Hm).
  destruct (fexp prec emax (Zdigits2 m + e) - e) as [| p | p];
    cbn [fst]; try exact H0.
  apply iter_shr_1_nonneg, H0.
Qed.

Lemma round_nearest_even_nonneg (m : Z) (l : location) :
  0 <= m -> 0 <= round_nearest_even m l.
Proof.
  intros Hm. destruct l as [| []]; simpl; try lia.
  destruct (Z.even m); lia.
Qed.

Lemma binary_round_aux_not_NaN (s : bool) (m e : Z) (l : location) :
  0 <= m -> isNaN (binary_round_aux prec emax s m e l) = false.
Proof.
  intros Hm. unfold binary_round_aux.
  pose proof (shr_fexp_nonneg m e l Hm) as H1.
  destruct (shr_fexp prec emax m e l) as [mrs' e']. cbn [fst] in H1.
  pose proof (shr_fexp_nonneg _ e' loc_Exact
                (round_nearest_even_nonneg _ (loc_of_shr_record mrs') H1))
    as H2.
  destruct (shr_fexp prec emax _ e' loc_Exact) as [mrs'' e''].
  cbn [fst] in H2.
  destruct (shr_m mrs'') as [| p | p]; try reflexivity.
  - destruct (e'' <=? emax - prec); reflexivity.
  - lia.
Qed.

Lemma binary_normalize_not_NaN (z e : Z) (sz : bool) :
  isNaN (binary_normalize prec emax z e sz) = false.
Proof.
  destruct z as [| p | p]; unfold binary_normalize, binary_round;
    try reflexivity;
    destruct (shl_align p e _) as [mz ez];
    apply binary_round_aux_not_NaN; lia.
Qed.

Lemma add_finite_not_NaN (x y : number) :
  isNaN x = false -> isFinite y = true -> isNaN (add x y) = false.
Proof.
  destruct x as [sx | sx | | sx mx ex], y as [sy | sy | | sy my ey];
    try discriminate; intros _ _; try reflexivity.
  - destruct sx, sy; reflexivity.
  - apply binary_normalize_not_NaN.
Qed.

(** So the price is positive whenever the last price is a number and the
    two increments of the step are finite. *)
Lemma generated_price_is_positive_without_overflow
    (chart : ChartService.t) (now : Z) (random : number) :
  isNaN (ChartService.lastPrice chart) = false ->
  isFinite (mul (mul (ChartService.lastPrice chart)
                     (ChartService.volatility chart))
                (sub (mul random (of_Z 2)) (of_Z 1))) = true ->
  isFinite (mul (ChartService.lastPrice chart) (ChartService.trend chart))
  = true ->
  lt (of_Z 0)
     (price (snd (ChartService.generateNextDataPoint chart now random)))
  = true.
Proof.
  intros Hl Hr Ht.
  refine (proj1 (Math_max_floor (ChartService.walkCandidate chart random) _)).
  unfold ChartService.walkCandidate.
  apply add_finite_not_NaN; [| exact Ht].
  apply add_finite_not_NaN; assumption.
Qed.

(** ** Facts on the timers *)

Lemma pick_None l : Timers.pick l = None -> l = [].
Proof.
  destruct l as [| x rest]; [reflexivity | simpl].
  destruct (Timers.pick rest) as [[[b m] a] |];
    [destruct (Timers.due x <=? Timers.due m) |]; discriminate.
Qed.

Lemma pick_split l before t after :
  Timers.pick l = Some (before, t, after) -> l = before ++ t :: after.
Proof.
  revert before t after.
  induction l as [| x rest IH]; intros before t after; simpl; [discriminate |].
  destruct (Timers.pick rest) as [[[b m] a] |] eqn:Hp.
  - destruct (Timers.due x <=? Timers.due m).
    + intros [= <- <- <-]. reflexivity.
    + intros [= <- <- <-]. simpl. f_equal. now apply IH.
  - intros [= <- <- <-]. now rewrite (pick_None _ Hp).
Qed.


Lemma rearm_In (t x : Timers.Timer) :
  In x (Timers.rearm t) ->
  Timers.tid x = Timers.tid t /\ Timers.callback x = Timers.callback t.
Proof.
  unfold Timers.rearm. destruct (Timers.period t); [| contradiction].
  intros [<- | []]. split; reflexivity.
Qed.

(** A timer of the table after a firing has the id and the callback of a
    timer of the table before it. *)
Lemma fired_In before t after x :
  In x (before ++ Timers.rearm t ++ after) ->
  exists y, In y (before ++ t :: after)
            /\ Timers.tid x = Timers.tid y
            /\ Timers.callback x = Timers.callback y.
Proof.
  rewrite !in_app_iff. intros [H | [H | H]].
  - exists x. rewrite in_app_iff. auto.
  - exists t. rewrite in_app_iff. simpl. destruct (rearm_In _ _ H). auto.
  - exists x. rewrite in_app_iff. simpl. auto.
Qed.


Lemma is_countdown_callback x y :
  Timers.callback x = Timers.callback y ->
  Invariant.is_countdown x = Invariant.is_countdown y.
Proof. unfold Invariant.is_countdown. now intros ->. Qed.





(** ** Facts on the subscriber *)

Lemma resultsEmitted_app (a b : list GameEvent) :
  Invariant.resultsEmitted (a ++ b)
  = Invariant.resultsEmitted a ++ Invariant.resultsEmitted b.
Proof.
  induction a as [| e a IH]; [reflexivity |].
  destruct e; simpl; rewrite IH; reflexivity.
Qed.

(** One result: the game keeps its user, its state and its countdown; it
    emits a [balance_changed] and a [result] event for a result of its
    user, and nothing for another. *)
Lemma handleGameResult_frame (g : Game.t) (r : GameResult.t) :
  Game.userId (fst (Game.handleGameResult g r)) = Game.userId g
  /\ Game.state (fst (Game.handleGameResult g r)) = Game.state g
  /\ Game.countdownIntervalId (fst (Game.handleGameResult g r))
     = Game.countdownIntervalId g
  /\ Invariant.resultsEmitted (snd (Game.handleGameResult g r))
     = (if Invariant.own g r then [r] else [])
  /\ Forall Invariant.settlementEvent (snd (Game.handleGameResult g r)).
Proof.
  unfold Game.handleGameResult, Invariant.own.
  destruct (String.eqb (Prediction.userId (GameResult.prediction r))
              (Game.userId g)); cbn [negb].
  - destruct (GameResultStatus_eqb (GameResult.status r) win); simpl;
      repeat split; repeat constructor.
  - simpl. repeat split. constructor.
Qed.

Lemma handleGameResults_frame (rs : list GameResult.t) :
  forall g : Game.t,
    Game.userId (fst (Game.handleGameResults g rs)) = Game.userId g
    /\ Game.state (fst (Game.handleGameResults g rs)) = Game.state g
    /\ Game.countdownIntervalId (fst (Game.handleGameResults g rs))
       = Game.countdownIntervalId g
    /\ Invariant.resultsEmitted (snd (Game.handleGameResults g rs))
       = filter (Invariant.own g) rs
    /\ Forall Invariant.settlementEvent (snd (Game.handleGameResults g rs)).
Proof.
  induction rs as [| r rs IH]; intros g; simpl.
  - repeat split. constructor.
  - destruct (handleGameResult_frame g r) as (Hu & Hs & Hc & He & Hf).
    destruct (Game.handleGameResult g r) as [g1 evs1]. cbn [fst snd] in *.
    destruct (IH g1) as (Hu' & Hs' & Hc' & He' & Hf').
    destruct (Game.handleGameResults g1 rs) as [g2 evs2]. cbn [fst snd] in *.
    repeat split; try congruence.
    + rewrite resultsEmitted_app, He, He'.
      assert (Hown : forall x, Invariant.own g1 x = Invariant.own g x)
        by (intros x; unfold Invariant.own; now rewrite Hu).
      rewrite (filter_ext _ _ Hown).
      destruct (Invariant.own g r); reflexivity.
    + apply Forall_app. split; assumption.
Qed.


(** ** Facts on the game service *)



(** ** The schedule of the game service across a firing *)








(** ** The invariant across every event *)











Lemma fillHistory_frame (remaining : nat) :
  forall calls initialPrice now Math_random this,
    ChartService.intervalId
      (ChartService.fillHistory remaining calls initialPrice now Math_random
         this)
    = ChartService.intervalId this
    /\ ChartService.updateInterval
         (ChartService.fillHistory remaining calls initialPrice now
            Math_random this)
       = ChartService.updateInterval this.
Proof.
  induction remaining as [| i IH]; intros; cbn [ChartService.fillHistory].
  - split; reflexivity.
  - destruct (IH (S calls) initialPrice now Math_random
                (ChartService.set_chartData_lastPrice this
                   (ChartData.addDataPoint (ChartService.chartData this)
                      (mkPoint (now - Z.of_nat i
                                      * ChartService.fixedTimeStep this)
                         (mul initialPrice
                            (add (of_Z 1)
                               (sub (mul (Math_random calls) lit_0_02)
                                    lit_0_01)))))
                   (mul initialPrice
                      (add (of_Z 1)
                         (sub (mul (Math_random calls) lit_0_02)
                              lit_0_01))))) as [H1 H2].
    split; [rewrite H1 | rewrite H2]; reflexivity.
Qed.


(** ** C2: every prediction is settled once *)





(** On the volatile feed: one prediction, settled by the first firing of
    the cycle; the second firing of the cycle, four seconds later, settles
    the empty second round and adds nothing. *)
Lemma second_cycle_adds_no_outcome :
  let w :=
    fst (World.run (World.boot Sample.volatileSetup 0 (fun _ => Sample.half))
           (Sample.volatileRun
            ++ repeat (World.Fire Sample.threeQuarters) 10)) in
  World.now w = 8000
  /\ map GameResult.prediction (GameService.results (World.gameService w))
     = [Prediction.new down (of_Z 10000) Sample.player 0]
  /\ length (Invariant.resultsEmitted (World.emitted w)) = 1%nat.
Proof. vm_compute. repeat split. Qed.

(** ** C4: what [stop()] stops *)

Lemma boot_tidy (s : World.Setup) (now : Z) (Math_random : nat -> number) :
  Invariant.tidy (World.boot s now Math_random).
Proof.
  unfold World.boot, ChartService.new, ChartService.startUpdates.
  destruct (fillHistory_frame (Z.to_nat (World.maxDataPoints s)) 0
              (World.initialPrice s) now Math_random
              {| ChartService.chartData :=
                   ChartData.new [] (World.maxDataPoints s);
                 ChartService.updateInterval := World.updateInterval s;
                 ChartService.intervalId := None;
                 ChartService.volatility := World.volatility s;
                 ChartService.trend := World.trend s;
                 ChartService.lastPrice := World.initialPrice s;
                 ChartService.fixedTimeStep := World.updateInterval s |})
    as [Hid Hui].
  cbn [ChartService.intervalId ChartService.updateInterval] in Hid, Hui.
  rewrite Hid. cbn. split; cbn; [| reflexivity].
  intros t [<- | [<- | []]]; discriminate.
Qed.

Lemma fired_countdown before t after x :
  In x (before ++ Timers.rearm t ++ after) ->
  Invariant.is_countdown x = true ->
  exists y, In y (before ++ t :: after)
            /\ Invariant.is_countdown y = true
            /\ Timers.tid y = Timers.tid x.
Proof.
  intros Hx Hc. destruct (fired_In _ _ _ _ Hx) as (y & Hy & Ht & Hcb).
  exists y. rewrite <- (is_countdown_callback _ _ Hcb). auto.
Qed.

Lemma tidy_fire (w : World.t) (random : number) :
  Invariant.tidy w -> Invariant.tidy (World.fire w random).
Proof.
  intros H. unfold World.fire.
  destruct (Timers.pick (Timers.pending (World.timers w)))
    as [[[before t] after] |] eqn:Hp; [| exact H].
  pose proof (pick_split _ _ _ _ Hp) as Hl.
  destruct H as [Hcd Hrun]. rewrite Hl in Hcd.
  assert (A : forall x, In x (before ++ Timers.rearm t ++ after) ->
                        Invariant.is_countdown x = true ->
                        Game.countdownIntervalId (World.game w)
                        = Some (Timers.tid x)).
  { intros x Hx Hc.
    destruct (fired_countdown _ _ _ _ Hx Hc) as (y & Hy & Hcy & <-). auto. }
  unfold World.runCallback.
  cbn [World.now World.timers World.chartService World.gameService
       World.game World.emitted].
  destruct (Timers.callback t).
  - destruct (ChartService.generateNextDataPoint _ _ _). split; cbn; auto.
  - destruct (GameService.cycle _ _ _ _) as [[svc' tbl'] delivered] eqn:Hcy.
    unfold GameService.cycle in Hcy.
    destruct (GameService.endCurrentRound _ _ _) as [svc1 delivered1].
    cbn in Hcy. injection Hcy as <- <- <-.
    destruct (handleGameResults_frame delivered1 (World.game w))
      as (_ & Hs & Hc & _ & _).
    destruct (Game.handleGameResults _ _) as [g' evs]. cbn [fst] in *.
    split; cbn.
    + intros x Hx Hcx. rewrite Hc. apply in_app_iff in Hx.
      destruct Hx as [Hx | [<- | []]]; [auto | discriminate].
    + rewrite Hs, Hc. exact Hrun.
  - split; cbn; auto.
  - destruct (Game.countdownTick _ _ _ _). split; cbn; auto.
Qed.

Lemma tidy_step (w : World.t) (ev : World.Event) :
  Invariant.tidy w -> Invariant.tidy (fst (World.step w ev)).
Proof.
  intros H. destruct ev as [random | ms | | | d a | d a u]; cbn [World.step].
  - now apply tidy_fire.
  - exact H.
  - destruct H as [Hcd Hrun]. unfold Game.start.
    destruct (GameState_eqb (Game.state (World.game w)) running);
      [split; cbn; auto |].
    destruct (GameService.getCurrentRound _ _ _) as [svc' round].
    unfold Game.startCountdown, Game.stopCountdown, Timers.setInterval.
    cbn [Game.countdownIntervalId Game.set_state].
    destruct (Game.countdownIntervalId (World.game w)) as [k |] eqn:Hid;
      cbn; split; cbn; try (intros E; congruence).
    + intros x Hx Hc. apply in_app_iff in Hx.
      destruct Hx as [Hx | [<- | []]]; [| reflexivity].
      apply filter_In in Hx. destruct Hx as [Hx Hne].
      specialize (Hcd x Hx Hc). injection Hcd as ->.
      rewrite Z.eqb_refl in Hne. discriminate.
    + intros x Hx Hc. apply in_app_iff in Hx.
      destruct Hx as [Hx | [<- | []]]; [| reflexivity].
      specialize (Hcd x Hx Hc). discriminate.
  - destruct H as [Hcd Hrun]. unfold Game.stop.
    destruct (negb (GameState_eqb (Game.state (World.game w)) running));
      [split; cbn; auto |].
    unfold Game.stopCountdown.
    cbn [Game.countdownIntervalId Game.set_state].
    destruct (Game.countdownIntervalId (World.game w)) as [k |] eqn:Hid;
      cbn; split; cbn; auto.
    + intros x Hx Hc. apply filter_In in Hx. destruct Hx as [Hx Hne].
      specialize (Hcd x Hx Hc). injection Hcd as ->.
      rewrite Z.eqb_refl in Hne. discriminate.
    + intros x Hx Hc. specialize (Hcd x Hx Hc). discriminate.
  - destruct (Game.makePrediction _ _ _ _ _ _) as [[[svc' evs] p] | e];
      exact H.
  - destruct (GameService.makePrediction _ _ _ _ _) as [[svc' p] | e];
      exact H.
Qed.

Lemma tidy_run (evs : list World.Event) :
  forall w, Invariant.tidy w -> Invariant.tidy (fst (World.run w evs)).
Proof.
  induction evs as [| ev evs IH]; intros w H; cbn [World.run]; [exact H |].
  pose proof (tidy_step w ev H) as H1.
  destruct (World.step w ev) as [w1 reply]. cbn [fst] in H1.
  specialize (IH w1 H1). destruct (World.run w1 evs). exact IH.
Qed.

Lemma run_snoc (evs : list World.Event) (ev : World.Event) :
  forall w,
    fst (World.run w (evs ++ [ev])) = fst (World.step (fst (World.run w evs)) ev).
Proof.
  induction evs as [| e evs IH]; intros w; cbn [World.run app fst].
  - destruct (World.step w ev). reflexivity.
  - destruct (World.step w e) as [w1 reply]. specialize (IH w1).
    destruct (World.run w1 (evs ++ [ev])), (World.run w1 evs).
    cbn [fst] in *. exact IH.
Qed.

Lemma stop_not_running (w : World.t) :
  Game.state (World.game (fst (World.step w World.Game_stop))) <> running.
Proof.
  cbn [World.step]. unfold Game.stop.
  destruct (GameState_eqb_spec (Game.state (World.game w)) running) as [E | E];
    cbn [negb].
  - unfold Game.stopCountdown. cbn [Game.countdownIntervalId Game.set_state].
    destruct (Game.countdownIntervalId (World.game w)); cbn; discriminate.
  - exact E.
Qed.

Lemma tidy_quiet (w : World.t) :
  Invariant.tidy w -> Game.state (World.game w) <> running -> Invariant.quiet w.
Proof.
  intros [Hcd Hrun] Hs. split; [exact Hs |].
  intros t Ht. destruct (Invariant.is_countdown t) eqn:Hc; [| reflexivity].
  specialize (Hcd t Ht Hc). rewrite (Hrun Hs) in Hcd. discriminate.
Qed.

(** A stopped game stays stopped until [start()], and what it emits in the
    meantime are events of settlements. *)
Lemma quiet_step (w : World.t) (ev : World.Event) :
  Invariant.quiet w ->
  ev <> World.Game_start ->
  Invariant.quiet (fst (World.step w ev))
  /\ exists extra,
      World.emitted (fst (World.step w ev)) = World.emitted w ++ extra
      /\ Forall Invariant.settlementEvent extra.
Proof.
  intros [Hs Hno] Hev.
  assert (Hnil : exists extra : list GameEvent,
             World.emitted w = World.emitted w ++ extra
             /\ Forall Invariant.settlementEvent extra)
    by (exists []; rewrite app_nil_r; auto).
  destruct ev as [random | ms | | | d a | d a u]; cbn [World.step fst].
  - unfold World.fire.
    destruct (Timers.pick (Timers.pending (World.timers w)))
      as [[[before t] after] |] eqn:Hp; [| repeat split; auto].
    pose proof (pick_split _ _ _ _ Hp) as Hl. rewrite Hl in Hno.
    assert (A : forall x, In x (before ++ Timers.rearm t ++ after) ->
                          Invariant.is_countdown x = false).
    { intros x Hx. destruct (fired_In _ _ _ _ Hx) as (y & Hy & _ & Hcb).
      rewrite (is_countdown_callback _ _ Hcb). auto. }
    assert (Ht : Invariant.is_countdown t = false)
      by (apply Hno, in_app_iff; right; now left).
    unfold World.runCallback.
    cbn [World.now World.timers World.chartService World.gameService
         World.game World.emitted].
    unfold Invariant.is_countdown in Ht.
    destruct (Timers.callback t); try discriminate.
    + destruct (ChartService.generateNextDataPoint _ _ _).
      repeat split; cbn; auto.
    + destruct (GameService.cycle _ _ _ _) as [[svc' tbl'] delivered] eqn:Hcy.
      unfold GameService.cycle in Hcy.
      destruct (GameService.endCurrentRound _ _ _) as [svc1 delivered1].
      cbn in Hcy. injection Hcy as <- <- <-.
      destruct (handleGameResults_frame delivered1 (World.game w))
        as (_ & Hst & _ & _ & Hf).
      destruct (Game.handleGameResults _ _) as [g' evs]. cbn [fst snd] in *.
      repeat split; cbn.
      * now rewrite Hst.
      * intros x Hx. apply in_app_iff in Hx.
        destruct Hx as [Hx | [<- | []]]; [auto | reflexivity].
      * eauto.
    + repeat split; cbn; auto.
  - repeat split; cbn; auto.
  - contradiction.
  - unfold Game.stop.
    destruct (GameState_eqb_spec (Game.state (World.game w)) running);
      [contradiction |].
    repeat split; cbn; auto.
  - unfold Game.makePrediction.
    destruct (GameState_eqb_spec (Game.state (World.game w)) running);
      [contradiction |].
    repeat split; cbn; auto.
  - destruct (GameService.makePrediction _ _ _ _ _) as [[svc' p] | e];
      repeat split; cbn; auto.
Qed.

Lemma quiet_run (evs : list World.Event) :
  forall w,
    Invariant.quiet w ->
    ~ In World.Game_start evs ->
    Invariant.quiet (fst (World.run w evs))
    /\ exists extra,
        World.emitted (fst (World.run w evs)) = World.emitted w ++ extra
        /\ Forall Invariant.settlementEvent extra.
Proof.
  induction evs as [| ev evs IH]; intros w Hq Hno; cbn [World.run].
  - split; [exact Hq |]. exists []. rewrite app_nil_r. auto.
  - assert (Hev : ev <> World.Game_start)
      by (intros ->; apply Hno; now left).
    destruct (quiet_step w ev Hq Hev) as (Hq1 & x1 & E1 & F1).
    destruct (World.step w ev) as [w1 reply]. cbn [fst] in *.
    destruct (IH w1 Hq1) as (Hq2 & x2 & E2 & F2);
      [intros Hin; apply Hno; now right |].
    destruct (World.run w1 evs) as [w2 created]. cbn [fst] in *.
    split; [exact Hq2 |]. exists (x1 ++ x2).
    rewrite E2, E1, app_assoc. split; [reflexivity |].
    apply Forall_app. auto.
Qed.

(** C4, as the code has it.  [stop()] cancels the countdown and nothing
    else.  After [stop()], and as long as [start()] is not called, the game
    is not running, no countdown is pending, and every event the game emits
    is a [balance_changed] or a [result] event of a settlement: the cycle of
    the game service keeps firing and its results still reach the game. *)
Theorem stopped_game_emits_only_settlements
    (s : World.Setup) (now : Z) (Math_random : nat -> number)
    (evs later : list World.Event) :
  ~ In World.Game_start later ->
  let w :=
    fst (World.run (World.boot s now Math_random)
           (evs ++ [World.Game_stop])) in
  let w' := fst (World.run w later) in
  Invariant.quiet w'
  /\ exists extra,
      World.emitted w' = World.emitted w ++ extra
      /\ Forall Invariant.settlementEvent extra.
Proof.
  intros Hno w w'. apply quiet_run; [| exact Hno].
  apply tidy_quiet.
  - apply tidy_run, boot_tidy.
  - subst w. rewrite run_snoc. apply stop_not_running.
Qed.

Lemma stopped_game_emits_only_settlements_witness :
  let w :=
    fst (World.run (World.boot Sample.volatileSetup 0 (fun _ => Sample.half))
           ([World.Game_start; World.Game_makePrediction down (of_Z 10000);
             World.Fire Sample.threeQuarters; World.Fire Sample.threeQuarters]
            ++ [World.Game_stop])) in
  let w' := fst (World.run w Sample.afterStop) in
  Invariant.quiet w'
  /\ exists extra,
      World.emitted w' = World.emitted w ++ extra
      /\ Forall Invariant.settlementEvent extra.
Proof.
  apply (stopped_game_emits_only_settlements Sample.volatileSetup 0
           (fun _ => Sample.half)
           [World.Game_start; World.Game_makePrediction down (of_Z 10000);
            World.Fire Sample.threeQuarters; World.Fire Sample.threeQuarters]
           Sample.afterStop).
  cbn. intros [H | [H | [H | [H | []]]]]; discriminate.
Defined.

(** C4 as stated fails: stop in the middle of the round that holds a
    prediction; when the cycle fires, three seconds later, the balance moves
    and a [result] event for that prediction is emitted. *)
Lemma result_event_fires_after_stop :
  let w :=
    fst (World.run (World.boot Sample.volatileSetup 0 (fun _ => Sample.half))
           Sample.stopMidRound) in
  let w' := fst (World.run w Sample.afterStop) in
  Game.state (World.game w) = finished
  /\ World.now w = 1000
  /\ Invariant.openPredictions (World.gameService w)
     = [Prediction.new down (of_Z 10000) Sample.player 0]
  /\ Invariant.resultsEmitted (World.emitted w) = []
  /\ World.now w' = 4000
  /\ map GameResult.prediction (Invariant.resultsEmitted (World.emitted w'))
     = [Prediction.new down (of_Z 10000) Sample.player 0]
  /\ Game.balance (World.game w) = of_Z 10000
  /\ Game.balance (World.game w') = of_Z (-13750).
Proof. vm_compute. repeat split. Qed.
